(** * telegram-service: the tool-dispatch gateway and its Telegram client

    A shallow embedding of [src/telegram_service/telegram_client.py]
    (class [TelegramClient]) and [apps/telegram_mcp_server.py]
    (class [TelegramMCPServer]), followed by the properties of the
    dispatcher, of the update cursor and of the result payloads.

    Python objects of type [Any] are JSON-like values; exceptions are an
    explicit error result; the aiogram [Bot] is an oracle that answers each
    remote call from the history of the calls made so far, and every remote
    call is recorded in the state, so that "the transport was not invoked"
    is a statement about that record. *)

From Stdlib Require Import String Ascii ZArith List Bool Lia.
Import ListNotations.
Local Open Scope string_scope.
Local Open Scope Z_scope.
Set Warnings "-register-all".

(** ** Python values *)

(** The values an argument bag ([Dict[str, Any]], decoded from JSON) can
    hold and that [json.dumps] can write.  Floats are left out. *)
Inductive value : Type :=
| VNone
| VBool (b : bool)
| VInt (z : Z)
| VStr (s : string)
| VList (l : list value)
| VDict (d : list (string * value)).

(** Python truth value testing: [bool(v)]. *)
Definition truthy (v : value) : bool :=
  match v with
  | VNone => false
  | VBool b => b
  | VInt z => negb (z =? 0)
  | VStr s => match s with EmptyString => false | String _ _ => true end
  | VList l => match l with [] => false | _ => true end
  | VDict d => match d with [] => false | _ => true end
  end.

(** [a or b] *)
Definition py_or (a b : value) : value := if truthy a then a else b.

(** [type(v).__name__] *)
Definition type_name (v : value) : string :=
  match v with
  | VNone => "NoneType"
  | VBool _ => "bool"
  | VInt _ => "int"
  | VStr _ => "str"
  | VList _ => "list"
  | VDict _ => "dict"
  end.

Definition of_opt_str (o : option string) : value :=
  match o with Some s => VStr s | None => VNone end.

Definition of_opt_bool (o : option bool) : value :=
  match o with Some b => VBool b | None => VNone end.

Definition of_opt_int (o : option Z) : value :=
  match o with Some z => VInt z | None => VNone end.

(** [d.get(k)] and [d.get(k, default)] on an argument bag. *)
Fixpoint lookup (d : list (string * value)) (k : string) : option value :=
  match d with
  | [] => None
  | (k', v) :: d' => if (k' =? k)%string then Some v else lookup d' k
  end.

Definition get (d : list (string * value)) (k : string) : value :=
  match lookup d k with Some v => v | None => VNone end.

Definition get_default (d : list (string * value)) (k : string) (default : value) : value :=
  match lookup d k with Some v => v | None => default end.

(** [s.upper()].  Only the letters a-z change; no character outside ASCII
    has an upper case that is a letter of MARKDOWN or HTML, so the two
    comparisons of the client see the same answer as under Python's Unicode
    rule. *)
Definition upper_ascii (c : ascii) : ascii :=
  let n := nat_of_ascii c in
  if (Nat.leb 97 n && Nat.leb n 122)%bool then ascii_of_nat (n - 32) else c.

Fixpoint upper (s : string) : string :=
  match s with
  | EmptyString => EmptyString
  | String c s' => String (upper_ascii c) (upper s')
  end.

(** ** Exceptions *)

Inductive exn : Type :=
| ValueError (msg : string)
| TypeError (msg : string)
| AttributeError (msg : string)
| TransportError (msg : string).

(** [str(e)] *)
Definition str (e : exn) : string :=
  match e with
  | ValueError m | TypeError m | AttributeError m | TransportError m => m
  end.

Inductive result (A : Type) : Type :=
| Ok (a : A)
| Raise (e : exn).
Arguments Ok {A} a.
Arguments Raise {A} e.

(** ** The objects of the transport library (aiogram) *)

Inductive ParseMode : Type := MARKDOWN | HTML.

Record datetime : Type := { isoformat : string; dt_str : string }.

Record User : Type := {
  user_id : Z;
  is_bot : bool;
  user_first_name : string;
  user_username : option string;
  can_join_groups : option bool;
  can_read_all_group_messages : option bool;
  supports_inline_queries : option bool
}.

Record Chat : Type := {
  chat_id_ : Z;
  chat_type : string;
  title : option string;
  chat_username : option string;
  chat_first_name : option string;
  chat_last_name : option string;
  description : option string
}.

Record Message : Type := {
  message_id : Z;
  date : option datetime;
  text_ : option string;
  from_user : option User;
  chat : Chat
}.

(** Of the fields of aiogram's [Update], the two the server reads and the
    class has. *)
Record Update : Type := {
  update_id : Z;
  message : option Message
}.

(** [update.update_type]: aiogram's [Update] has no attribute of this name
    (the kind of an update is its property [event_type]), so the lookup
    raises on every update. *)
Definition no_update_type : exn :=
  AttributeError "'Update' object has no attribute 'update_type'".

Definition update_type (update : Update) : result string := Raise no_update_type.

Record WebhookInfo : Type := {
  url : string;
  has_custom_certificate : bool;
  pending_update_count : Z;
  ip_address : option string;
  last_error_date : option datetime;
  last_error_message : option string;
  max_connections : option Z;
  allowed_updates : option (list string)
}.

(** ** The transport *)

(** One constructor per method of [Bot] the client calls, with the keyword
    arguments the client passes. *)
Inductive call : Type :=
| SendMessage (chat_id text : value) (parse_mode : option ParseMode)
    (disable_notification reply_to_message_id reply_markup : value)
| SendPhoto (chat_id photo caption : value) (parse_mode : option ParseMode)
    (disable_notification : value)
| SendDocument (chat_id document caption : value) (parse_mode : option ParseMode)
    (disable_notification : value)
| GetUpdates (offset : option Z) (limit timeout allowed : value)
| GetMe
| GetChat (chat_id : value)
| GetChatMemberCount (chat_id : value)
| SetWebhook (url_ certificate ip max_conn allowed : value)
| DeleteWebhook
| GetWebhookInfo.

(** What each method returns when it does not raise. *)
Definition resp (c : call) : Type :=
  match c with
  | SendMessage _ _ _ _ _ _ | SendPhoto _ _ _ _ _ | SendDocument _ _ _ _ _ => Message
  | GetUpdates _ _ _ _ => list Update
  | GetMe => User
  | GetChat _ => Chat
  | GetChatMemberCount _ => Z
  | SetWebhook _ _ _ _ _ | DeleteWebhook => bool
  | GetWebhookInfo => WebhookInfo
  end.

(** The remote side: its answer to a call may depend on every call made
    before it. *)
Definition Bot : Type := list call -> forall c : call, result (resp c).

Definition is_send (c : call) : bool :=
  match c with
  | SendMessage _ _ _ _ _ _ | SendPhoto _ _ _ _ _ | SendDocument _ _ _ _ _ => true
  | _ => false
  end.

(** The destination and the parse mode a send call carries. *)
Definition call_chat_id (c : call) : option value :=
  match c with
  | SendMessage t _ _ _ _ _ | SendPhoto t _ _ _ _ | SendDocument t _ _ _ _ => Some t
  | _ => None
  end.

Definition call_parse_mode (c : call) : option ParseMode :=
  match c with
  | SendMessage _ _ p _ _ _ | SendPhoto _ _ _ p _ | SendDocument _ _ _ p _ => p
  | _ => None
  end.

(** ** Process, state and the monad of the code *)

Record TelegramClient : Type := {
  bot_token : string;
  default_chat_id : option string
}.

(** What lies outside the process: the environment variables, the
    constructor of [Bot] (which checks the token) and the remote side. *)
Record World : Type := {
  getenv : string -> option string;
  Bot_new : string -> result unit;
  bot : Bot
}.

(** The attributes of [TelegramMCPServer] that change, and the record of the
    transport calls made so far (oldest first). *)
Record state : Type := {
  client : option TelegramClient;
  last_update_id : option Z;
  calls : list call
}.

Definition M (A : Type) : Type := World -> state -> result A * state.

Definition ret {A} (a : A) : M A := fun _ st => (Ok a, st).

Definition raise {A} (e : exn) : M A := fun _ st => (Raise e, st).

Definition bind {A B} (m : M A) (k : A -> M B) : M B :=
  fun w st =>
    match m w st with
    | (Ok a, st') => k a w st'
    | (Raise e, st') => (Raise e, st')
    end.

(** [try: m except Exception as e: h e] *)
Definition try_except {A} (m : M A) (h : exn -> M A) : M A :=
  fun w st =>
    match m w st with
    | (Ok a, st') => (Ok a, st')
    | (Raise e, st') => h e w st'
    end.

Notation "x <- m ;; k" := (bind m (fun x => k))
  (at level 61, m at next level, right associativity).
Notation "m ;;; k" := (bind m (fun _ => k))
  (at level 61, right associativity).

Definition lift {A} (r : result A) : M A := fun _ st => (r, st).

(** The state once one more remote call has been made. *)
Definition record (c : call) (st : state) : state :=
  {| client := client st; last_update_id := last_update_id st;
     calls := calls st ++ [c] |}.

(** [await self.bot.<method>(...)]: the call is answered from the calls
    made before it, and recorded. *)
Definition await (c : call) : M (resp c) :=
  fun w st => (bot w (calls st) c, record c st).

Definition get_last_update_id : M (option Z) := fun _ st => (Ok (last_update_id st), st).

Definition set_last_update_id (z : Z) : M unit :=
  fun _ st =>
    (Ok tt, {| client := client st; last_update_id := Some z; calls := calls st |}).

Definition get_client : M (option TelegramClient) := fun _ st => (Ok (client st), st).

Definition set_client (c : TelegramClient) : M unit :=
  fun _ st =>
    (Ok tt, {| client := Some c; last_update_id := last_update_id st; calls := calls st |}).

Definition os_getenv (k : string) : M (option string) := fun w st => (Ok (getenv w k), st).

(** ** [TelegramClient] (telegram_client.py) *)

(** [TelegramClient()]: both constructor arguments are [None] when the
    server builds its client, so the token and the default destination come
    from the environment. *)
Definition TelegramClient_new : M TelegramClient :=
  token <- os_getenv "TELEGRAM_BOT_TOKEN" ;;
  default <- os_getenv "TELEGRAM_CHAT_ID" ;;
  if negb (truthy (of_opt_str token)) then
    raise (ValueError "Missing Telegram bot token.")
  else
    let token_s := match token with Some s => s | None => EmptyString end in
    (fun w st => (Bot_new w token_s, st)) ;;;
    ret {| bot_token := token_s; default_chat_id := default |}.

(** [text[:50]], evaluated for the debug line of [send_message]. *)
Definition slice50 (text : value) : result unit :=
  match text with
  | VStr _ | VList _ => Ok tt
  | VDict _ => Raise (TypeError "unhashable type: 'slice'")
  | v => Raise (TypeError ("'" ++ type_name v ++ "' object is not subscriptable"))
  end.

(** [parse_mode.upper()] *)
Definition dot_upper (v : value) : M string :=
  match v with
  | VStr s => ret (upper s)
  | v => raise (AttributeError ("'" ++ type_name v ++ "' object has no attribute 'upper'"))
  end.

(** The block "Convert parse_mode string to enum", the same in the three
    send methods but for its guard: [if parse_mode:] in [send_message],
    [if parse_mode and caption:] in the other two. *)
Definition to_parse_mode_enum (guard : bool) (parse_mode : value) : M (option ParseMode) :=
  if guard then
    u <- dot_upper parse_mode ;;
    if (u =? "MARKDOWN")%string then ret (Some MARKDOWN)
    else
      u' <- dot_upper parse_mode ;;
      if (u' =? "HTML")%string then ret (Some HTML) else ret None
  else ret None.

Definition no_chat_id : exn :=
  ValueError "No chat_id provided and no default chat_id set".

(** [except Exception as e: self.logger.error(...); raise] *)
Definition log_and_reraise {A} (m : M A) : M A := try_except m (fun e => raise e).

Definition send_message (self : TelegramClient)
    (text chat_id parse_mode disable_notification reply_to_message_id reply_markup : value)
    : M Message :=
  let target_chat_id := py_or chat_id (of_opt_str (default_chat_id self)) in
  if negb (truthy target_chat_id) then raise no_chat_id
  else
    lift (slice50 text) ;;;
    log_and_reraise
      (parse_mode_enum <- to_parse_mode_enum (truthy parse_mode) parse_mode ;;
       await (SendMessage target_chat_id text parse_mode_enum
                disable_notification reply_to_message_id reply_markup)).

Definition send_photo (self : TelegramClient)
    (photo chat_id caption parse_mode disable_notification : value) : M Message :=
  let target_chat_id := py_or chat_id (of_opt_str (default_chat_id self)) in
  if negb (truthy target_chat_id) then raise no_chat_id
  else
    log_and_reraise
      (parse_mode_enum <-
         to_parse_mode_enum (truthy parse_mode && truthy caption) parse_mode ;;
       await (SendPhoto target_chat_id photo caption parse_mode_enum
                disable_notification)).

Definition send_document (self : TelegramClient)
    (document chat_id caption parse_mode disable_notification : value) : M Message :=
  let target_chat_id := py_or chat_id (of_opt_str (default_chat_id self)) in
  if negb (truthy target_chat_id) then raise no_chat_id
  else
    log_and_reraise
      (parse_mode_enum <-
         to_parse_mode_enum (truthy parse_mode && truthy caption) parse_mode ;;
       await (SendDocument target_chat_id document caption parse_mode_enum
                disable_notification)).

Definition get_updates (self : TelegramClient)
    (offset : option Z) (limit timeout allowed : value) : M (list Update) :=
  log_and_reraise (await (GetUpdates offset limit timeout allowed)).

Definition get_me (self : TelegramClient) : M User :=
  log_and_reraise (await GetMe).

Definition get_chat (self : TelegramClient) (chat_id : value) : M Chat :=
  log_and_reraise (await (GetChat chat_id)).

Definition get_chat_member_count (self : TelegramClient) (chat_id : value) : M Z :=
  log_and_reraise (await (GetChatMemberCount chat_id)).

Definition set_webhook (self : TelegramClient)
    (url certificate ip max_conn allowed : value) : M bool :=
  log_and_reraise (await (SetWebhook url certificate ip max_conn allowed)).

Definition delete_webhook (self : TelegramClient) : M bool :=
  log_and_reraise (await DeleteWebhook).

(** [get_webhook_info] returns a dict; [last_error_date] stays a datetime
    in it and is written by [json.dumps(..., default=str)] in the server. *)
Definition get_webhook_info (self : TelegramClient) : M (list (string * value)) :=
  log_and_reraise
    (info <- await GetWebhookInfo ;;
     ret [("url", VStr (url info));
          ("has_custom_certificate", VBool (has_custom_certificate info));
          ("pending_update_count", VInt (pending_update_count info));
          ("ip_address", of_opt_str (ip_address info));
          ("last_error_date", of_opt_str (option_map dt_str (last_error_date info)));
          ("last_error_message", of_opt_str (last_error_message info));
          ("max_connections", of_opt_int (max_connections info));
          ("allowed_updates",
           match allowed_updates info with
           | Some l => VList (map VStr l)
           | None => VNone
           end)]).

(** ** [TelegramMCPServer] (telegram_mcp_server.py) *)

(** The text of a [TextContent]: either [json.dumps(obj, indent=2)], kept
    as the object it serialises (the serialiser is library code, and a
    serialised dict starts with an opening brace), or an f-string. *)
Inductive Text : Type :=
| json_dumps (obj : value)
| plain (s : string).

Record TextContent : Type := { type : string; text : Text }.

Definition text_content (t : Text) : TextContent := {| type := "text"; text := t |}.

(** [{"success": False, "error": str(e)}], the failure payload of every
    handler. *)
Definition failure (e : exn) : value :=
  VDict [("success", VBool false); ("error", VStr (str e))].

Definition failure_reply (e : exn) : M (list TextContent) :=
  ret [text_content (json_dumps (failure e))].

(** [self.client.<method>]: an attribute lookup on [None] raises. *)
Definition self_client (method : string) : M TelegramClient :=
  c <- get_client ;;
  match c with
  | Some c => ret c
  | None =>
      raise (AttributeError ("'NoneType' object has no attribute '" ++ method ++ "'"))
  end.

(** [TelegramMCPServer.__init__]: no client, no cursor, nothing sent. *)
Definition init_state : state :=
  {| client := None; last_update_id := None; calls := [] |}.

Definition initialize : M unit :=
  log_and_reraise (c <- TelegramClient_new ;; set_client c).

Definition send_message_body (arguments : list (string * value)) : M (list TextContent) :=
  let text := get arguments "text" in
  let chat_id := get arguments "chat_id" in
  let parse_mode := get_default arguments "parse_mode" (VStr "Markdown") in
  let disable_notification := get_default arguments "disable_notification" (VBool false) in
  c <- self_client "send_message" ;;
  message <- send_message c text chat_id parse_mode disable_notification VNone VNone ;;
  let result :=
    VDict [("success", VBool true);
           ("message_id", VInt (message_id message));
           ("chat_id", VInt (chat_id_ (chat message)));
           ("date", of_opt_str (option_map isoformat (date message)))] in
  ret [text_content (json_dumps result)].

Definition _send_message (arguments : list (string * value)) : M (list TextContent) :=
  try_except (send_message_body arguments) failure_reply.

Definition send_photo_body (arguments : list (string * value)) : M (list TextContent) :=
  let photo_url := get arguments "photo_url" in
  let caption := get arguments "caption" in
  let chat_id := get arguments "chat_id" in
  let parse_mode := get_default arguments "parse_mode" (VStr "Markdown") in
  c <- self_client "send_photo" ;;
  message <- send_photo c photo_url chat_id caption parse_mode (VBool false) ;;
  let result :=
    VDict [("success", VBool true);
           ("message_id", VInt (message_id message));
           ("chat_id", VInt (chat_id_ (chat message)));
           ("has_caption", VBool (truthy caption))] in
  ret [text_content (json_dumps result)].

Definition _send_photo (arguments : list (string * value)) : M (list TextContent) :=
  try_except (send_photo_body arguments) failure_reply.

(** [_send_document] reads no [parse_mode] argument: the client's default,
    "Markdown", applies. *)
Definition send_document_body (arguments : list (string * value)) : M (list TextContent) :=
  let document_url := get arguments "document_url" in
  let caption := get arguments "caption" in
  let chat_id := get arguments "chat_id" in
  c <- self_client "send_document" ;;
  message <- send_document c document_url chat_id caption (VStr "Markdown") (VBool false) ;;
  let result :=
    VDict [("success", VBool true);
           ("message_id", VInt (message_id message));
           ("chat_id", VInt (chat_id_ (chat message)));
           ("has_caption", VBool (truthy caption))] in
  ret [text_content (json_dumps result)].

Definition _send_document (arguments : list (string * value)) : M (list TextContent) :=
  try_except (send_document_body arguments) failure_reply.

(** [self.last_update_id + 1 if self.last_update_id else None]: the test is
    Python truth of an [Optional[int]], false on [None] and on [0]. *)
Definition next_offset (seen : option Z) : option Z :=
  if truthy (of_opt_int seen) then option_map (fun z => z + 1) seen else None.

(** The body of the loop of [_get_updates]: the entry of one update. *)
Definition format_update (update : Update) : M value :=
  kind <- lift (update_type update) ;;
  let update_info :=
    [("update_id", VInt (update_id update)); ("type", VStr kind)] in
  ret (VDict
    (match message update with
     | Some m =>
         update_info ++
         [("message",
           VDict [("id", VInt (message_id m));
                  ("date", of_opt_str (option_map isoformat (date m)));
                  ("text", of_opt_str (text_ m));
                  ("from",
                   VDict [("id", of_opt_int (option_map user_id (from_user m)));
                          ("username",
                           match from_user m with
                           | Some u => of_opt_str (user_username u)
                           | None => VNone
                           end);
                          ("first_name",
                           of_opt_str (option_map user_first_name (from_user m)))]);
                  ("chat",
                   VDict [("id", VInt (chat_id_ (chat m)));
                          ("type", VStr (chat_type (chat m)));
                          ("title", of_opt_str (title (chat m)))])])]
     | None => update_info
     end)).

(** [for update in updates: ... formatted_updates.append(update_info)] *)
Fixpoint format_updates (updates : list Update) : M (list value) :=
  match updates with
  | [] => ret []
  | update :: updates' =>
      update_info <- format_update update ;;
      formatted_updates <- format_updates updates' ;;
      ret (update_info :: formatted_updates)
  end.

Definition get_updates_body (arguments : list (string * value)) : M (list TextContent) :=
  let limit := get_default arguments "limit" (VInt 10) in
  let timeout := get_default arguments "timeout" (VInt 0) in
  c <- self_client "get_updates" ;;
  seen <- get_last_update_id ;;
  updates <- get_updates c (next_offset seen) limit timeout VNone ;;
  match updates with
  | [] =>
      ret [text_content
             (json_dumps (VDict [("updates", VList []); ("count", VInt 0)]))]
  | u :: rest =>
      set_last_update_id (update_id (last rest u)) ;;;
      formatted_updates <- format_updates updates ;;
      ret [text_content
             (json_dumps
                (VDict [("updates", VList formatted_updates);
                        ("count", VInt (Z.of_nat (length formatted_updates)))]))]
  end.

Definition _get_updates (arguments : list (string * value)) : M (list TextContent) :=
  try_except (get_updates_body arguments) failure_reply.

Definition get_bot_info_body (arguments : list (string * value)) : M (list TextContent) :=
  c <- self_client "get_me" ;;
  bot_info <- get_me c ;;
  let info :=
    VDict [("id", VInt (user_id bot_info));
           ("is_bot", VBool (is_bot bot_info));
           ("first_name", VStr (user_first_name bot_info));
           ("username", of_opt_str (user_username bot_info));
           ("can_join_groups", of_opt_bool (can_join_groups bot_info));
           ("can_read_all_group_messages",
            of_opt_bool (can_read_all_group_messages bot_info));
           ("supports_inline_queries", of_opt_bool (supports_inline_queries bot_info))] in
  ret [text_content (json_dumps info)].

Definition _get_bot_info (arguments : list (string * value)) : M (list TextContent) :=
  try_except (get_bot_info_body arguments) failure_reply.

(** The primary fields of [_get_chat_info]. *)
Definition chat_fields (chat_info : Chat) : list (string * value) :=
  [("id", VInt (chat_id_ chat_info));
   ("type", VStr (chat_type chat_info));
   ("title", of_opt_str (title chat_info));
   ("username", of_opt_str (chat_username chat_info));
   ("first_name", of_opt_str (chat_first_name chat_info));
   ("last_name", of_opt_str (chat_last_name chat_info));
   ("description", of_opt_str (description chat_info))].

Definition get_chat_info_body (arguments : list (string * value)) : M (list TextContent) :=
  let chat_id := get arguments "chat_id" in
  c <- self_client "get_chat" ;;
  chat_info <- get_chat c chat_id ;;
  let info := chat_fields chat_info in
  info' <- try_except
             (c' <- self_client "get_chat_member_count" ;;
              member_count <- get_chat_member_count c' chat_id ;;
              ret (info ++ [("member_count", VInt member_count)])%list)
             (fun _ => ret info) ;;
  ret [text_content (json_dumps (VDict info'))].

Definition _get_chat_info (arguments : list (string * value)) : M (list TextContent) :=
  try_except (get_chat_info_body arguments) failure_reply.

Definition set_webhook_body (arguments : list (string * value)) : M (list TextContent) :=
  let url := get arguments "url" in
  let allowed_updates := get arguments "allowed_updates" in
  c <- self_client "set_webhook" ;;
  result <- set_webhook c url VNone VNone VNone allowed_updates ;;
  ret [text_content
         (json_dumps
            (VDict [("success", VBool result);
                    ("webhook_url", url);
                    ("message",
                     VStr (if result then "Webhook set successfully"
                           else "Failed to set webhook"))]))].

Definition _set_webhook (arguments : list (string * value)) : M (list TextContent) :=
  try_except (set_webhook_body arguments) failure_reply.

Definition delete_webhook_body (arguments : list (string * value)) : M (list TextContent) :=
  c <- self_client "delete_webhook" ;;
  result <- delete_webhook c ;;
  ret [text_content
         (json_dumps
            (VDict [("success", VBool result);
                    ("message",
                     VStr (if result then "Webhook deleted successfully"
                           else "Failed to delete webhook"))]))].

Definition _delete_webhook (arguments : list (string * value)) : M (list TextContent) :=
  try_except (delete_webhook_body arguments) failure_reply.

Definition get_webhook_info_body (arguments : list (string * value)) : M (list TextContent) :=
  c <- self_client "get_webhook_info" ;;
  info <- get_webhook_info c ;;
  ret [text_content (json_dumps (VDict info))].

Definition _get_webhook_info (arguments : list (string * value)) : M (list TextContent) :=
  try_except (get_webhook_info_body arguments) failure_reply.

(** The first statement of [call_tool]: the client is created on first use. *)
Definition connect : M unit :=
  c <- get_client ;;
  match c with
  | Some _ => ret tt
  | None => initialize
  end.

(** The chain of comparisons of [call_tool], without the statement before
    it and the [try] around it. *)
Definition dispatch (name : string) (arguments : list (string * value))
    : M (list TextContent) :=
  if (name =? "telegram_send_message")%string then _send_message arguments
  else if (name =? "telegram_send_photo")%string then _send_photo arguments
  else if (name =? "telegram_send_document")%string then _send_document arguments
  else if (name =? "telegram_get_updates")%string then _get_updates arguments
  else if (name =? "telegram_get_bot_info")%string then _get_bot_info arguments
  else if (name =? "telegram_get_chat_info")%string then _get_chat_info arguments
  else if (name =? "telegram_set_webhook")%string then _set_webhook arguments
  else if (name =? "telegram_delete_webhook")%string then _delete_webhook arguments
  else if (name =? "telegram_get_webhook_info")%string then _get_webhook_info arguments
  else ret [text_content (plain ("Unknown tool: " ++ name))].

Definition call_tool (name : string) (arguments : list (string * value))
    : M (list TextContent) :=
  try_except
    (connect ;;; dispatch name arguments)
    (fun e => ret [text_content (plain ("Error: " ++ str e))]).

(** The names [list_tools] declares. *)
Definition catalog : list string :=
  ["telegram_send_message"; "telegram_send_photo"; "telegram_send_document";
   "telegram_get_updates"; "telegram_get_bot_info"; "telegram_get_chat_info";
   "telegram_set_webhook"; "telegram_delete_webhook"; "telegram_get_webhook_info"].

Definition send_tools : list string :=
  ["telegram_send_message"; "telegram_send_photo"; "telegram_send_document"].

(** A request is a tool name with its argument bag; the server answers
    requests one after the other. *)
Definition request : Type := (string * list (string * value))%type.

Fixpoint serve (w : World) (reqs : list request) (st : state) : state :=
  match reqs with
  | [] => st
  | (name, arguments) :: reqs' => serve w reqs' (snd (call_tool name arguments w st))
  end.

(** ** Views used by the statements *)

(** The body of the [try] of the handler a name selects. *)
Definition body_of (name : string)
    : option (list (string * value) -> M (list TextContent)) :=
  if (name =? "telegram_send_message")%string then Some send_message_body
  else if (name =? "telegram_send_photo")%string then Some send_photo_body
  else if (name =? "telegram_send_document")%string then Some send_document_body
  else if (name =? "telegram_get_updates")%string then Some get_updates_body
  else if (name =? "telegram_get_bot_info")%string then Some get_bot_info_body
  else if (name =? "telegram_get_chat_info")%string then Some get_chat_info_body
  else if (name =? "telegram_set_webhook")%string then Some set_webhook_body
  else if (name =? "telegram_delete_webhook")%string then Some delete_webhook_body
  else if (name =? "telegram_get_webhook_info")%string then Some get_webhook_info_body
  else None.

(** A reply that is one JSON object with [success] false and a string
    [error]. *)
Definition is_failure_envelope (r : list TextContent) : Prop :=
  exists d m,
    r = [text_content (json_dumps (VDict d))] /\
    lookup d "success" = Some (VBool false) /\
    lookup d "error" = Some (VStr m).

(** A reply that is one JSON object with [success] true. *)
Definition is_success_envelope (r : list TextContent) : Prop :=
  exists d,
    r = [text_content (json_dumps (VDict d))] /\
    lookup d "success" = Some (VBool true).

(** The cursor order: unset is below every identifier. *)
Definition cursor_le (a b : option Z) : Prop :=
  match a, b with
  | None, _ => True
  | Some _, None => False
  | Some x, Some y => x <= y
  end.

(** What the parse-mode block computes on a string. *)
Definition normalize (s : string) : option ParseMode :=
  if (upper s =? "MARKDOWN")%string then Some MARKDOWN
  else if (upper s =? "HTML")%string then Some HTML
  else None.

(** ** Sample worlds *)

Definition sample_chat : Chat :=
  {| chat_id_ := 42; chat_type := "private"; title := None;
     chat_username := Some "alice"; chat_first_name := Some "Alice";
     chat_last_name := None; description := None |}.

Definition sample_message : Message :=
  {| message_id := 7; date := Some {| isoformat := "2024-01-01T00:00:00";
                                      dt_str := "2024-01-01 00:00:00" |};
     text_ := Some "hi"; from_user := None; chat := sample_chat |}.

Definition sample_user : User :=
  {| user_id := 1; is_bot := true; user_first_name := "bot";
     user_username := Some "a_bot"; can_join_groups := Some true;
     can_read_all_group_messages := Some false;
     supports_inline_queries := Some false |}.

Definition sample_webhook : WebhookInfo :=
  {| url := "https://example.test/hook"; has_custom_certificate := false;
     pending_update_count := 0; ip_address := None; last_error_date := None;
     last_error_message := None; max_connections := None;
     allowed_updates := None |}.

Definition mk_update (i : Z) : Update :=
  {| update_id := i; message := None |}.

(** A remote side that accepts everything; a pull at a given offset is
    answered with the identifiers [batch] gives for it, the webhook calls
    with [flag], and the member count with [count]. *)
Definition sample_bot (batch : option Z -> list Z) (flag : bool) (count : result Z) : Bot :=
  fun _ c =>
    match c return result (resp c) with
    | SendMessage _ _ _ _ _ _ | SendPhoto _ _ _ _ _ | SendDocument _ _ _ _ _ =>
        Ok sample_message
    | GetUpdates offset _ _ _ => Ok (map mk_update (batch offset))
    | GetMe => Ok sample_user
    | GetChat _ => Ok sample_chat
    | GetChatMemberCount _ => count
    | SetWebhook _ _ _ _ _ | DeleteWebhook => Ok flag
    | GetWebhookInfo => Ok sample_webhook
    end.

(** A remote side that rejects every call. *)
Definition failing_bot : Bot :=
  fun _ c => Raise (TransportError "Bad Request: chat not found").

Definition sample_world (b : Bot) : World :=
  {| getenv := fun k => if (k =? "TELEGRAM_BOT_TOKEN")%string then Some "123:abc" else None;
     Bot_new := fun _ => Ok tt;
     bot := b |}.

Definition sample_client (default : option string) : TelegramClient :=
  {| bot_token := "123:abc"; default_chat_id := default |}.

(** A server whose client exists, with a given default destination and
    cursor, before any remote call. *)
Definition ready (default : option string) (cursor : option Z) : state :=
  {| client := Some (sample_client default); last_update_id := cursor; calls := [] |}.

(** ** Further views: cursor, parse modes, payloads *)

(** A computation that never writes [last_update_id]. *)
Definition keeps_cursor {A} (m : M A) : Prop :=
  forall w st, last_update_id (snd (m w st)) = last_update_id st.

(** The remote call a pull makes from a given cursor. *)
Definition pull (seen : option Z) (arguments : list (string * value)) : call :=
  GetUpdates (next_offset seen)
    (get_default arguments "limit" (VInt 10))
    (get_default arguments "timeout" (VInt 0)) VNone.

(** What a pull leaves in the cursor, from the answer of the remote side. *)
Definition advance (seen : option Z) (answer : result (list Update)) : option Z :=
  match answer with
  | Ok (u :: rest) => Some (update_id (last rest u))
  | Ok [] | Raise _ => seen
  end.

(** The remote side has nothing to deliver: no pull is answered with a
    batch that holds an update. *)
Definition no_batch (b : Bot) : Prop :=
  forall history offset limit timeout allowed u rest,
    b history (GetUpdates offset limit timeout allowed) <> Ok (u :: rest).

(** The remote side answers a pull with identifiers that are not negative
    and not below the offset it was given. *)
Definition transport_ordered (b : Bot) : Prop :=
  forall history offset limit timeout allowed batch u,
    b history (GetUpdates offset limit timeout allowed) = Ok batch ->
    In u batch ->
    0 <= update_id u /\
    match offset with Some o => o <= update_id u | None => True end.

(** A remote side in order: it answers a pull with the one update whose
    identifier is the offset, or [1] when there is none or it is smaller. *)
Definition ordered_batch (offset : option Z) : list Z :=
  [match offset with Some o => Z.max o 1 | None => 1 end].

(** The parse-mode block as a function of its guard and of the argument:
    a string is looked up, anything else that reaches [.upper()] raises. *)
Definition converted (guard : bool) (parse_mode : value) : result (option ParseMode) :=
  if guard then
    match parse_mode with
    | VStr s => Ok (normalize s)
    | v => Raise (AttributeError ("'" ++ type_name v ++ "' object has no attribute 'upper'"))
    end
  else Ok None.

(** What a send handler writes on success. *)
Definition sent_text (m : Message) : value :=
  VDict [("success", VBool true);
         ("message_id", VInt (message_id m));
         ("chat_id", VInt (chat_id_ (chat m)));
         ("date", of_opt_str (option_map isoformat (date m)))].

Definition sent_file (caption : value) (m : Message) : value :=
  VDict [("success", VBool true);
         ("message_id", VInt (message_id m));
         ("chat_id", VInt (chat_id_ (chat m)));
         ("has_caption", VBool (truthy caption))].

(** The reply of a handler from the outcome of the client method it wraps. *)
Definition reply_of {A} (shape : A -> value) (out : result A * state)
    : result (list TextContent) * state :=
  match out with
  | (Ok a, st') => (Ok [text_content (json_dumps (shape a))], st')
  | (Raise e, st') => (Ok [text_content (json_dumps (failure e))], st')
  end.

(** The arguments of a send tool have the types its schema declares: the
    parse mode is a string or null and, for [telegram_send_message], the
    text is a string. *)
Definition well_typed (name : string) (arguments : list (string * value)) : bool :=
  match get_default arguments "parse_mode" (VStr "Markdown") with
  | VStr _ | VNone =>
      if (name =? "telegram_send_message")%string then
        match get arguments "text" with VStr _ => true | _ => false end
      else true
  | _ => false
  end.

(** The destination of a send request: the explicit [chat_id] when it is
    there and not empty (Python-true), else the default of the client. *)
Definition destination (c : TelegramClient) (arguments : list (string * value)) : value :=
  if truthy (get arguments "chat_id") then get arguments "chat_id"
  else of_opt_str (default_chat_id c).

(** What a request for a declared tool does first, read from the client,
    the cursor and the arguments alone: either the client refuses the
    arguments with an exception before any remote call (no destination, a
    text that cannot be sliced, a parse mode that is not a string), or the
    request makes this remote call. [None] for a name outside the catalog. *)
Definition first_call (name : string) (c : TelegramClient) (seen : option Z)
    (arguments : list (string * value)) : option (result call) :=
  let target := py_or (get arguments "chat_id") (of_opt_str (default_chat_id c)) in
  let caption := get arguments "caption" in
  let parse_mode := get_default arguments "parse_mode" (VStr "Markdown") in
  if (name =? "telegram_send_message")%string then
    Some (if truthy target then
            match slice50 (get arguments "text"),
                  converted (truthy parse_mode) parse_mode with
            | Raise e, _ => Raise e
            | Ok _, Raise e => Raise e
            | Ok _, Ok p =>
                Ok (SendMessage target (get arguments "text") p
                      (get_default arguments "disable_notification" (VBool false))
                      VNone VNone)
            end
          else Raise no_chat_id)
  else if (name =? "telegram_send_photo")%string then
    Some (if truthy target then
            match converted (truthy parse_mode && truthy caption) parse_mode with
            | Raise e => Raise e
            | Ok p =>
                Ok (SendPhoto target (get arguments "photo_url") caption p (VBool false))
            end
          else Raise no_chat_id)
  else if (name =? "telegram_send_document")%string then
    Some (if truthy target then
            match converted (truthy (VStr "Markdown") && truthy caption)
                    (VStr "Markdown") with
            | Raise e => Raise e
            | Ok p =>
                Ok (SendDocument target (get arguments "document_url") caption p
                      (VBool false))
            end
          else Raise no_chat_id)
  else if (name =? "telegram_get_updates")%string then Some (Ok (pull seen arguments))
  else if (name =? "telegram_get_bot_info")%string then Some (Ok GetMe)
  else if (name =? "telegram_get_chat_info")%string then
    Some (Ok (GetChat (get arguments "chat_id")))
  else if (name =? "telegram_set_webhook")%string then
    Some (Ok (SetWebhook (get arguments "url") VNone VNone VNone
                (get arguments "allowed_updates")))
  else if (name =? "telegram_delete_webhook")%string then Some (Ok DeleteWebhook)
  else if (name =? "telegram_get_webhook_info")%string then Some (Ok GetWebhookInfo)
  else None.

(** The fields [_get_bot_info] writes. *)
Definition bot_info_fields (bot_info : User) : list (string * value) :=
  [("id", VInt (user_id bot_info));
   ("is_bot", VBool (is_bot bot_info));
   ("first_name", VStr (user_first_name bot_info));
   ("username", of_opt_str (user_username bot_info));
   ("can_join_groups", of_opt_bool (can_join_groups bot_info));
   ("can_read_all_group_messages", of_opt_bool (can_read_all_group_messages bot_info));
   ("supports_inline_queries", of_opt_bool (supports_inline_queries bot_info))].

(** The fields [get_webhook_info] returns and [_get_webhook_info] writes. *)
Definition webhook_fields (info : WebhookInfo) : list (string * value) :=
  [("url", VStr (url info));
   ("has_custom_certificate", VBool (has_custom_certificate info));
   ("pending_update_count", VInt (pending_update_count info));
   ("ip_address", of_opt_str (ip_address info));
   ("last_error_date", of_opt_str (option_map dt_str (last_error_date info)));
   ("last_error_message", of_opt_str (last_error_message info));
   ("max_connections", of_opt_int (max_connections info));
   ("allowed_updates",
    match allowed_updates info with
    | Some l => VList (map VStr l)
    | None => VNone
    end)].

(** ** The declared tools ([list_tools]) *)

Inductive json_type : Type := TString | TInteger | TBoolean | TArray (items : json_type).

(** One entry of the [properties] of an input schema; the keys a schema
    does not write are [None]. *)
Record Property : Type := {
  prop_name : string;
  prop_type : json_type;
  prop_description : string;
  prop_enum : option (list string);
  prop_default : option value;
  prop_minimum : option Z;
  prop_maximum : option Z
}.

Record Tool : Type := {
  tool_name : string;
  tool_description : string;
  tool_properties : list Property;
  tool_required : list string
}.

Definition plain_property (n : string) (t : json_type) (d : string) : Property :=
  {| prop_name := n; prop_type := t; prop_description := d; prop_enum := None;
     prop_default := None; prop_minimum := None; prop_maximum := None |}.

Definition chat_id_property : Property :=
  plain_property "chat_id" TString "Target chat ID (uses default if not provided)".

Definition parse_mode_property (d : string) : Property :=
  {| prop_name := "parse_mode"; prop_type := TString; prop_description := d;
     prop_enum := Some ["Markdown"; "HTML"; "None"];
     prop_default := Some (VStr "Markdown");
     prop_minimum := None; prop_maximum := None |}.

Definition list_tools : list Tool :=
  [ {| tool_name := "telegram_send_message";
       tool_description := "Send a message to a Telegram chat";
       tool_properties :=
         [ plain_property "text" TString "The message text to send (supports Markdown)";
           chat_id_property;
           parse_mode_property "Parse mode for the message";
           {| prop_name := "disable_notification"; prop_type := TBoolean;
              prop_description := "Send message silently"; prop_enum := None;
              prop_default := Some (VBool false);
              prop_minimum := None; prop_maximum := None |} ];
       tool_required := ["text"] |};
    {| tool_name := "telegram_send_photo";
       tool_description := "Send a photo to a Telegram chat";
       tool_properties :=
         [ plain_property "photo_url" TString "URL or file path of the photo to send";
           plain_property "caption" TString "Optional caption for the photo";
           chat_id_property;
           parse_mode_property "Parse mode for the caption" ];
       tool_required := ["photo_url"] |};
    {| tool_name := "telegram_send_document";
       tool_description := "Send a document/file to a Telegram chat";
       tool_properties :=
         [ plain_property "document_url" TString
             "URL or file path of the document to send";
           plain_property "caption" TString "Optional caption for the document";
           chat_id_property ];
       tool_required := ["document_url"] |};
    {| tool_name := "telegram_get_updates";
       tool_description := "Get recent updates/messages from the Telegram bot";
       tool_properties :=
         [ {| prop_name := "limit"; prop_type := TInteger;
              prop_description := "Maximum number of updates to retrieve";
              prop_enum := None; prop_default := Some (VInt 10);
              prop_minimum := Some 1; prop_maximum := Some 100 |};
           {| prop_name := "timeout"; prop_type := TInteger;
              prop_description := "Timeout in seconds for long polling";
              prop_enum := None; prop_default := Some (VInt 0);
              prop_minimum := None; prop_maximum := None |} ];
       tool_required := [] |};
    {| tool_name := "telegram_get_bot_info";
       tool_description := "Get information about the Telegram bot";
       tool_properties := [];
       tool_required := [] |};
    {| tool_name := "telegram_get_chat_info";
       tool_description := "Get information about a specific chat";
       tool_properties :=
         [ plain_property "chat_id" TString "The chat ID to get information about" ];
       tool_required := ["chat_id"] |};
    {| tool_name := "telegram_set_webhook";
       tool_description := "Set webhook URL for the bot";
       tool_properties :=
         [ plain_property "url" TString "HTTPS URL to send updates to";
           plain_property "allowed_updates" (TArray TString)
             "List of update types to receive" ];
       tool_required := ["url"] |};
    {| tool_name := "telegram_delete_webhook";
       tool_description := "Remove webhook and switch back to getUpdates";
       tool_properties := [];
       tool_required := [] |};
    {| tool_name := "telegram_get_webhook_info";
       tool_description := "Get current webhook status and configuration";
       tool_properties := [];
       tool_required := [] |} ].

(** The remote calls a tool may make. *)
Definition allowed_call (name : string) (k : call) : bool :=
  match k with
  | SendMessage _ _ _ _ _ _ => (name =? "telegram_send_message")%string
  | SendPhoto _ _ _ _ _ => (name =? "telegram_send_photo")%string
  | SendDocument _ _ _ _ _ => (name =? "telegram_send_document")%string
  | GetUpdates _ _ _ _ => (name =? "telegram_get_updates")%string
  | GetMe => (name =? "telegram_get_bot_info")%string
  | GetChat _ | GetChatMemberCount _ => (name =? "telegram_get_chat_info")%string
  | SetWebhook _ _ _ _ _ => (name =? "telegram_set_webhook")%string
  | DeleteWebhook => (name =? "telegram_delete_webhook")%string
  | GetWebhookInfo => (name =? "telegram_get_webhook_info")%string
  end.

(** How many remote calls a tool may make in one request. *)
Definition call_budget (name : string) : nat :=
  if (name =? "telegram_get_chat_info")%string then 2%nat else 1%nat.

(** A computation that never writes [client]. *)
Definition keeps_client {A} (m : M A) : Prop :=
  forall w st, client (snd (m w st)) = client st.

(** ** The constructor of [TelegramClient] with its arguments *)

(** [TelegramClient(bot_token, default_chat_id)]: an argument that is given
    and not empty wins over the environment. *)
Definition TelegramClient_init (token chat : option string) : M TelegramClient :=
  env_token <- os_getenv "TELEGRAM_BOT_TOKEN" ;;
  env_chat <- os_getenv "TELEGRAM_CHAT_ID" ;;
  let token' := if truthy (of_opt_str token) then token else env_token in
  let chat' := if truthy (of_opt_str chat) then chat else env_chat in
  if negb (truthy (of_opt_str token')) then
    raise (ValueError "Missing Telegram bot token.")
  else
    let token_s := match token' with Some s => s | None => EmptyString end in
    (fun w st => (Bot_new w token_s, st)) ;;;
    ret {| bot_token := token_s; default_chat_id := chat' |}.
(** What [TelegramClient()] gives in a world: it reads the environment and
    builds the [Bot], and touches nothing of the server. *)
Definition construct (w : World) : result TelegramClient :=
  fst (TelegramClient_new w init_state).

(** A server that has no client yet, with calls already on record. *)
Definition ready_to_connect (made : list call) : state :=
  {| client := None; last_update_id := None; calls := made |}.

(** A world whose environment is empty. *)
Definition bare_world (b : Bot) : World :=
  {| getenv := fun _ => None; Bot_new := fun _ => Ok tt; bot := b |}.

(** The value [x or y] of two optional strings. *)
Definition opt_or (x y : option string) : option string :=
  if truthy (of_opt_str x) then x else y.

(** ** [TelegramNotifier] (notification.py) *)

Record TelegramNotifier : Type := { notifier_client : TelegramClient }.

(** [TelegramNotifier()] *)
Definition TelegramNotifier_new : M TelegramNotifier :=
  c <- TelegramClient_new ;; ret {| notifier_client := c |}.

(** The keyword parameters of [TelegramClient.send_message] that are left
    once [text] is bound to the positional argument. *)
Definition send_message_keywords : list string :=
  ["chat_id"; "parse_mode"; "disable_notification"; "reply_to_message_id";
   "reply_markup"].

(** The first key of [kwargs] the call cannot bind. *)
Fixpoint unexpected (kwargs : list (string * value)) : option string :=
  match kwargs with
  | [] => None
  | (k, _) :: kwargs' =>
      if existsb (String.eqb k) send_message_keywords then unexpected kwargs'
      else Some k
  end.

(** [self.client.send_message(message, **kwargs)]: Python binds the
    keywords first, and raises [TypeError] for a key that names no free
    parameter (the text is the one of CPython 3.10; the notifier only logs
    it). *)
Definition send_message_kw (c : TelegramClient) (message : value)
    (kwargs : list (string * value)) : M Message :=
  match unexpected kwargs with
  | Some k =>
      raise (TypeError
               (if ((k =? "text") || (k =? "self"))%string then
                  "TelegramClient.send_message() got multiple values for argument '"
                  ++ k ++ "'"
                else
                  "TelegramClient.send_message() got an unexpected keyword argument '"
                  ++ k ++ "'"))
  | None =>
      send_message c message (get kwargs "chat_id")
        (get_default kwargs "parse_mode" (VStr "Markdown"))
        (get_default kwargs "disable_notification" (VBool false))
        (get kwargs "reply_to_message_id") (get kwargs "reply_markup")
  end.

(** The first key of [kwargs] that names a parameter of
    [TelegramNotifier.send_message] itself. *)
Fixpoint own_parameter (kwargs : list (string * value)) : option string :=
  match kwargs with
  | [] => None
  | (k, _) :: kwargs' =>
      if ((k =? "message") || (k =? "self"))%string then Some k
      else own_parameter kwargs'
  end.

(** [notifier.send_message(message, **kwargs)]: a keyword named [message]
    or [self] cannot be bound, the parameter having its value already, and
    Python raises [TypeError] at the call, before the body and its [try]
    are entered; otherwise the body runs with the other keywords. *)
Definition notifier_send_message (self : TelegramNotifier) (message : value)
    (kwargs : list (string * value)) : M bool :=
  match own_parameter kwargs with
  | Some k =>
      raise (TypeError
               ("TelegramNotifier.send_message() got multiple values for argument '"
                ++ k ++ "'"))
  | None =>
      try_except
        (send_message_kw (notifier_client self) message kwargs ;;; ret true)
        (fun _ => ret false)
  end.

Definition nl : string := String (ascii_of_nat 10) EmptyString.

(** The text both waitlist notifications build, from their first line. *)
Definition waitlist_message (header name email : string)
    (comment referral_source : option string) : string :=
  let message :=
    header ++ nl ++ nl ++ "*Name:* " ++ name ++ nl ++ "*Email:* " ++ email in
  let message :=
    match comment with
    | Some c => if truthy (VStr c) then message ++ nl ++ "*Comment:* " ++ c else message
    | None => message
    end in
  match referral_source with
  | Some r =>
      if truthy (VStr r) then message ++ nl ++ "*Referral Source:* " ++ r else message
  | None => message
  end.

Definition send_new_waitlist_entry (self : TelegramNotifier) (name email : string)
    (comment referral_source : option string) : M unit :=
  let message :=
    waitlist_message "🆕 *New Waitlist Entry:*" name email comment referral_source in
  notifier_send_message self (VStr message) [] ;;; ret tt.

Definition send_updated_waitlist_entry (self : TelegramNotifier) (name email : string)
    (comment referral_source : option string) : M unit :=
  let message :=
    waitlist_message "🔄 *Waitlist Entry Updated*" name email comment referral_source in
  notifier_send_message self (VStr message) [] ;;; ret tt.

(** ** The life of the server ([run], [main]) *)

(** What hosts the server: the world, how [self.server.run] ends once the
    requests have been answered, and what closing the session of the bot
    does. *)
Record Host : Type := {
  host_world : World;
  serving : result unit;
  session_close : result unit
}.

(** How [run] ends: what it returns or raises, the server it leaves and the
    number of times the session was closed. *)
Record ending : Type := {
  outcome : result unit;
  final : state;
  closes : nat
}.

(** [run]: the [except] clause raises again what serving raised; the
    [finally] clause closes the client if there is one, and what closing
    raises replaces the rest. *)
Definition run (h : Host) (reqs : list request) (st : state) : ending :=
  let st' := serve (host_world h) reqs st in
  match client st' with
  | Some _ =>
      {| outcome := match session_close h with
                    | Ok _ => serving h
                    | Raise e => Raise e
                    end;
         final := st'; closes := 1 |}
  | None => {| outcome := serving h; final := st'; closes := 0 |}
  end.

Inductive exit : Type :=
| SysExit (code : Z)
| Returned (e : ending).

(** [main]: without a token the process exits with status 1 before a
    server exists. *)
Definition main (h : Host) (reqs : list request) : exit :=
  if negb (truthy (of_opt_str (getenv (host_world h) "TELEGRAM_BOT_TOKEN")))
  then SysExit 1
  else Returned (run h reqs init_state).

(** * Properties *)

(** ** The monad *)

Lemma bind_ok {A B} (m : M A) (k : A -> M B) w st a st' :
  m w st = (Ok a, st') -> bind m k w st = k a w st'.
Proof. intros H. unfold bind. now rewrite H. Qed.

Lemma bind_raise {A B} (m : M A) (k : A -> M B) w st e st' :
  m w st = (Raise e, st') -> bind m k w st = (Raise e, st').
Proof. intros H. unfold bind. now rewrite H. Qed.

Lemma try_except_ok {A} (m : M A) h w st a st' :
  m w st = (Ok a, st') -> try_except m h w st = (Ok a, st').
Proof. intros H. unfold try_except. now rewrite H. Qed.

Lemma try_except_raise {A} (m : M A) h w st e st' :
  m w st = (Raise e, st') -> try_except m h w st = h e w st'.
Proof. intros H. unfold try_except. now rewrite H. Qed.

Lemma log_and_reraise_id {A} (m : M A) w st : log_and_reraise m w st = m w st.
Proof.
  unfold log_and_reraise, try_except, raise.
  destruct (m w st) as [[a|e] st']; reflexivity.
Qed.

(** A handler, being a [try] whose [except] returns, returns. *)
Lemma handler_returns (m : M (list TextContent)) w st :
  exists r st', try_except m failure_reply w st = (Ok r, st').
Proof.
  unfold try_except, failure_reply, ret.
  destruct (m w st) as [[a|e] st']; eauto.
Qed.

(** ** The dispatcher *)

Lemma dispatch_known name arguments body :
  body_of name = Some body ->
  dispatch name arguments = try_except (body arguments) failure_reply.
Proof.
  unfold body_of, dispatch. intros H.
  repeat match type of H with
         | (if ?b then _ else _) = _ =>
             destruct b; [injection H as <-; reflexivity|]
         end.
  discriminate.
Qed.

Lemma body_of_catalog name : In name catalog -> exists body, body_of name = Some body.
Proof.
  unfold catalog. simpl. intros H.
  repeat (destruct H as [<-|H]; [eexists; reflexivity|]).
  contradiction.
Qed.

Lemma body_of_unknown name : ~ In name catalog -> body_of name = None.
Proof.
  unfold catalog, body_of. simpl. intros H.
  repeat match goal with
         | |- (if (?a =? ?b)%string then _ else _) = _ =>
             destruct (String.eqb_spec a b) as [E|_]; [exfalso; apply H; rewrite E; tauto|]
         end.
  reflexivity.
Qed.

Lemma dispatch_unknown name arguments :
  ~ In name catalog ->
  dispatch name arguments = ret [text_content (plain ("Unknown tool: " ++ name))].
Proof.
  unfold catalog, dispatch. simpl. intros H.
  repeat match goal with
         | |- (if (?a =? ?b)%string then _ else _) = _ =>
             destruct (String.eqb_spec a b) as [E|_]; [exfalso; apply H; rewrite E; tauto|]
         end.
  reflexivity.
Qed.

Lemma dispatch_returns name arguments w st :
  exists r st', dispatch name arguments w st = (Ok r, st').
Proof.
  destruct (body_of name) as [body|] eqn:E.
  - rewrite (dispatch_known _ _ _ E). apply handler_returns.
  - unfold body_of, dispatch in *.
    repeat match type of E with
           | (if ?b then _ else _) = _ => destruct b; [discriminate|]
           end.
    unfold ret. eauto.
Qed.

(** [call_tool] hands every exception to its [except] clause, which
    returns: no call raises. *)
Lemma call_tool_returns name arguments w st :
  exists r st', call_tool name arguments w st = (Ok r, st').
Proof.
  unfold call_tool, try_except, ret.
  destruct (bind connect _ w st) as [[a|e] st']; eauto.
Qed.

(** With a session at hand, [call_tool] is its chain of comparisons. *)
Lemma call_tool_connected name arguments w st st1 :
  connect w st = (Ok tt, st1) ->
  call_tool name arguments w st = dispatch name arguments w st1.
Proof.
  intros H. unfold call_tool.
  destruct (dispatch_returns name arguments w st1) as (r & st2 & Hd).
  rewrite Hd. apply try_except_ok.
  rewrite (bind_ok _ _ _ _ _ _ H). exact Hd.
Qed.

Lemma connect_ready w st c : client st = Some c -> connect w st = (Ok tt, st).
Proof.
  intros H. unfold connect, bind, get_client, ret. now rewrite H.
Qed.

(** Creating the client leaves the cursor and the call record alone. *)
Lemma connect_frame w st :
  last_update_id (snd (connect w st)) = last_update_id st /\
  calls (snd (connect w st)) = calls st.
Proof.
  unfold connect, bind, get_client, ret.
  destruct (client st); [simpl; auto|].
  unfold initialize. rewrite log_and_reraise_id.
  unfold bind, TelegramClient_new, bind, os_getenv, raise, ret, set_client.
  destruct (negb _); simpl; auto.
  destruct (Bot_new w _); simpl; auto.
Qed.

(** A validation failure has the same shape: no destination at all. *)
Example validation_failure_envelope :
  fst (call_tool "telegram_send_message" [("text", VStr "hi")]
         (sample_world (sample_bot (fun _ => []) true (Ok 3))) init_state) =
    Ok [text_content
          (json_dumps
             (VDict [("success", VBool false);
                     ("error", VStr "No chat_id provided and no default chat_id set")]))].
Proof. reflexivity. Qed.

(** ** Unknown tool names *)

(** C4, as the claim states it, fails: the reply to a name outside the
    catalog is the sentence [Unknown tool: <name>], not a JSON object, so
    it has no [success] field at all. *)
Lemma unknown_tool_reply_is_no_envelope :
  fst (call_tool "telegram_ping" [] (sample_world (sample_bot (fun _ => []) true (Ok 3)))
         (ready None None)) =
    Ok [text_content (plain "Unknown tool: telegram_ping")] /\
  ~ is_failure_envelope [text_content (plain "Unknown tool: telegram_ping")].
Proof.
  split; [reflexivity|].
  intros (d & m & H & _). discriminate H.
Qed.

(** C4, amended. For a name outside the catalog [call_tool] returns
    normally, makes no remote call and leaves the cursor alone; its reply is
    one plain sentence: [Unknown tool: <name>] when the session exists or
    can be created, [Error: <message>] when creating it fails. *)
Theorem unknown_tool_plain_reply w st name arguments :
  ~ In name catalog ->
  fst (call_tool name arguments w st) =
    Ok [text_content
          (plain (match fst (connect w st) with
                  | Ok _ => "Unknown tool: " ++ name
                  | Raise e => "Error: " ++ str e
                  end))] /\
  calls (snd (call_tool name arguments w st)) = calls st /\
  last_update_id (snd (call_tool name arguments w st)) = last_update_id st.
Proof.
  intros H.
  destruct (connect_frame w st) as [Hl Hc].
  unfold call_tool, try_except, bind.
  rewrite (dispatch_unknown _ arguments H).
  destruct (connect w st) as [[[]|e] st1]; simpl in *; auto.
Qed.

Lemma unknown_tool_plain_reply_witness :
  fst (call_tool "telegram_ping" [] (sample_world failing_bot) init_state) =
    Ok [text_content (plain "Unknown tool: telegram_ping")].
Proof.
  apply (unknown_tool_plain_reply (sample_world failing_bot) init_state
           "telegram_ping" []).
  unfold catalog. simpl.
  intros H.
  repeat (destruct H as [H|H]; [discriminate H|]).
  exact H.
Defined.

(** ** The update cursor *)

Lemma kc_ret {A} (a : A) : keeps_cursor (ret a).
Proof. now intros w st. Qed.

Lemma kc_raise {A} e : keeps_cursor (@raise A e).
Proof. now intros w st. Qed.

Lemma kc_bind {A B} (m : M A) (k : A -> M B) :
  keeps_cursor m -> (forall a, keeps_cursor (k a)) -> keeps_cursor (bind m k).
Proof.
  intros Hm Hk w st. unfold bind. specialize (Hm w st).
  destruct (m w st) as [[a|e] st1]; simpl in *; [|assumption].
  now rewrite Hk.
Qed.

Lemma kc_try {A} (m : M A) h :
  keeps_cursor m -> (forall e, keeps_cursor (h e)) -> keeps_cursor (try_except m h).
Proof.
  intros Hm Hh w st. unfold try_except. specialize (Hm w st).
  destruct (m w st) as [[a|e] st1]; simpl in *; [assumption|].
  now rewrite Hh.
Qed.

Lemma kc_await c : keeps_cursor (await c).
Proof. now intros w st. Qed.

Lemma kc_get_client : keeps_cursor get_client.
Proof. now intros w st. Qed.

Lemma kc_set_client c : keeps_cursor (set_client c).
Proof. now intros w st. Qed.

Lemma kc_getenv k : keeps_cursor (os_getenv k).
Proof. now intros w st. Qed.

Lemma kc_bot_new s : keeps_cursor (fun w st => (Bot_new w s, st)).
Proof. now intros w st. Qed.

Create HintDb cursor.
#[local] Hint Resolve kc_ret kc_raise kc_await kc_get_client kc_set_client
  kc_getenv kc_bot_new : cursor.

Ltac keeps :=
  repeat first
    [ progress intros
    | solve [auto with cursor]
    | apply kc_bind
    | apply kc_try
    | match goal with
      | |- keeps_cursor (if ?b then _ else _) => destruct b
      | |- keeps_cursor (match ?x with _ => _ end) => destruct x
      end ].

Lemma kc_self_client s : keeps_cursor (self_client s).
Proof. unfold self_client. keeps. Qed.

Lemma kc_to_parse_mode_enum g p : keeps_cursor (to_parse_mode_enum g p).
Proof. unfold to_parse_mode_enum, dot_upper. keeps. Qed.

#[local] Hint Resolve kc_self_client kc_to_parse_mode_enum : cursor.

Lemma kc_connect : keeps_cursor connect.
Proof. intros w st. apply connect_frame. Qed.

Lemma kc_lift {A} (r : result A) : keeps_cursor (lift r).
Proof. now intros w st. Qed.

Lemma kc_send_message_body a : keeps_cursor (send_message_body a).
Proof.
  unfold send_message_body, send_message, log_and_reraise.
  keeps; apply kc_lift.
Qed.

Lemma kc_send_photo_body a : keeps_cursor (send_photo_body a).
Proof. unfold send_photo_body, send_photo, log_and_reraise. keeps. Qed.

Lemma kc_send_document_body a : keeps_cursor (send_document_body a).
Proof. unfold send_document_body, send_document, log_and_reraise. keeps. Qed.

Lemma kc_get_bot_info_body a : keeps_cursor (get_bot_info_body a).
Proof. unfold get_bot_info_body, get_me, log_and_reraise. keeps. Qed.

Lemma kc_get_chat_info_body a : keeps_cursor (get_chat_info_body a).
Proof.
  unfold get_chat_info_body, get_chat, get_chat_member_count, log_and_reraise.
  keeps.
Qed.

Lemma kc_set_webhook_body a : keeps_cursor (set_webhook_body a).
Proof. unfold set_webhook_body, set_webhook, log_and_reraise. keeps. Qed.

Lemma kc_delete_webhook_body a : keeps_cursor (delete_webhook_body a).
Proof. unfold delete_webhook_body, delete_webhook, log_and_reraise. keeps. Qed.

Lemma kc_get_webhook_info_body a : keeps_cursor (get_webhook_info_body a).
Proof. unfold get_webhook_info_body, get_webhook_info, log_and_reraise. keeps. Qed.

(** Every tool but [telegram_get_updates] keeps the cursor. *)
Lemma kc_dispatch name arguments :
  name <> "telegram_get_updates" -> keeps_cursor (dispatch name arguments).
Proof.
  intros Hn. unfold dispatch.
  repeat match goal with
         | |- keeps_cursor (if (?a =? ?b)%string then _ else _) =>
             destruct (String.eqb_spec a b)
         end;
    try contradiction;
    try (apply kc_try; [|intros; apply kc_ret]);
    auto using kc_send_message_body, kc_send_photo_body, kc_send_document_body,
      kc_get_bot_info_body, kc_get_chat_info_body, kc_set_webhook_body,
      kc_delete_webhook_body, kc_get_webhook_info_body, kc_ret.
Qed.

Lemma kc_call_tool name arguments :
  name <> "telegram_get_updates" -> keeps_cursor (call_tool name arguments).
Proof.
  intros Hn. unfold call_tool.
  apply kc_try; [apply kc_bind; [apply kc_connect|intros; now apply kc_dispatch]|].
  intros; apply kc_ret.
Qed.

Lemma get_updates_handler w st c arguments :
  client st = Some c ->
  let q := pull (last_update_id st) arguments in
  calls (snd (_get_updates arguments w st)) = (calls st ++ [q])%list /\
  last_update_id (snd (_get_updates arguments w st)) =
    advance (last_update_id st) (bot w (calls st) q) /\
  client (snd (_get_updates arguments w st)) = Some c.
Proof.
  intros Hc q. subst q.
  unfold _get_updates, try_except, get_updates_body, self_client, bind, get_client,
    get_last_update_id, get_updates, pull, advance, ret.
  rewrite Hc. rewrite log_and_reraise_id. unfold await.
  destruct (bot w (calls st) _) as [[|u rest]|e]; simpl; auto.
Qed.

Lemma connect_client w st st1 :
  connect w st = (Ok tt, st1) ->
  exists c, client st1 = Some c /\
            last_update_id st1 = last_update_id st /\ calls st1 = calls st.
Proof.
  unfold connect, bind, get_client, ret.
  destruct (client st) as [c|] eqn:Hc.
  - intros [= <-]. eauto.
  - unfold initialize. rewrite log_and_reraise_id.
    unfold bind, TelegramClient_new, bind, os_getenv, raise, ret, set_client.
    destruct (negb _); [discriminate|].
    destruct (Bot_new w _); [|discriminate].
    intros [= <-]. simpl. eauto.
Qed.

(** The cursor after a [telegram_get_updates] request. *)
Lemma call_tool_get_updates w st arguments :
  let q := pull (last_update_id st) arguments in
  let st' := snd (call_tool "telegram_get_updates" arguments w st) in
  last_update_id st' =
    match fst (connect w st) with
    | Ok _ => advance (last_update_id st) (bot w (calls st) q)
    | Raise _ => last_update_id st
    end /\
  calls st' =
    match fst (connect w st) with
    | Ok _ => (calls st ++ [q])%list
    | Raise _ => calls st
    end.
Proof.
  intros q st'. subst q st'.
  destruct (connect w st) as [[[]|e] st1] eqn:Hconn.
  - rewrite (call_tool_connected _ _ _ _ _ Hconn).
    destruct (connect_client _ _ _ Hconn) as (c & Hc & Hl & Hk).
    change (dispatch "telegram_get_updates" arguments) with (_get_updates arguments).
    destruct (get_updates_handler w st1 c arguments Hc) as (H1 & H2 & _).
    simpl. rewrite H1, H2, Hl, Hk. auto.
  - pose proof (connect_frame w st) as [Hl Hk]. rewrite Hconn in Hl, Hk.
    unfold call_tool, try_except, bind. rewrite Hconn. simpl in *. auto.
Qed.

(** A pull from an unset cursor passes no offset, and the cursor stays
    unset until a pull has returned a batch that is not empty. *)
Lemma first_pull_has_no_offset arguments :
  pull None arguments =
    GetUpdates None (get_default arguments "limit" (VInt 10))
      (get_default arguments "timeout" (VInt 0)) VNone.
Proof. reflexivity. Qed.

Lemma cursor_unset_before_first_batch w reqs st :
  no_batch (bot w) ->
  last_update_id st = None ->
  last_update_id (serve w reqs st) = None.
Proof.
  intros Hb. revert st.
  induction reqs as [|[name arguments] reqs IH]; intros st Hst; simpl; [exact Hst|].
  apply IH.
  destruct (String.eqb_spec name "telegram_get_updates") as [->|Hn].
  - destruct (call_tool_get_updates w st arguments) as [H _]. rewrite H.
    destruct (fst (connect w st)); [|exact Hst].
    unfold advance.
    destruct (bot w (calls st) _) as [[|u rest]|e] eqn:E; try exact Hst.
    now apply Hb in E.
  - now rewrite (kc_call_tool name arguments Hn).
Qed.

(** The offset computed from a cursor: one more than the identifier, but
    none when the identifier is [0]. *)
Lemma next_offset_spec seen :
  next_offset seen =
    match seen with
    | Some z => if z =? 0 then None else Some (z + 1)
    | None => None
    end.
Proof.
  unfold next_offset. destruct seen as [z|]; simpl; [|reflexivity].
  now destruct (z =? 0).
Qed.

(** C2 at the input where it fails: a first pull returns the one update of
    identifier [0]; the cursor is then [0], and the next pull passes no
    offset, where the claim asks for the offset [1]. *)
Theorem offset_after_identifier_zero :
  let w := sample_world (sample_bot (fun _ => [0]) true (Ok 3)) in
  let st := serve w [("telegram_get_updates", [])] init_state in
  last_update_id st = Some 0 /\
  calls st = [GetUpdates None (VInt 10) (VInt 0) VNone] /\
  calls (snd (call_tool "telegram_get_updates" [] w st)) =
    [GetUpdates None (VInt 10) (VInt 0) VNone;
     GetUpdates None (VInt 10) (VInt 0) VNone].
Proof. repeat split. Qed.

(** At any other identifier the offset is the one the claim states. *)
Example offset_after_identifier_five :
  let w := sample_world (sample_bot (fun _ => [4; 5]) true (Ok 3)) in
  calls (serve w [("telegram_get_updates", []); ("telegram_get_updates", [])]
           init_state) =
    [GetUpdates None (VInt 10) (VInt 0) VNone;
     GetUpdates (Some 6) (VInt 10) (VInt 0) VNone].
Proof. reflexivity. Qed.

(** C3, as the claim states it, fails: nothing in the handler compares the
    new identifier with the old one, so a batch that ends below the cursor
    moves the cursor back. *)
Lemma cursor_moves_back :
  let w := sample_world (sample_bot (fun _ => [3]) true (Ok 3)) in
  let st := ready None (Some 5) in
  last_update_id (snd (call_tool "telegram_get_updates" [] w st)) = Some 3 /\
  ~ cursor_le (last_update_id st)
      (last_update_id (snd (call_tool "telegram_get_updates" [] w st))).
Proof.
  split; [reflexivity|].
  simpl. lia.
Qed.

Lemma last_in {A} (l : list A) (d : A) : In (last l d) (d :: l).
Proof.
  induction l as [|a l IH]; [now left|].
  destruct l as [|b l']; [simpl; auto|].
  change (last (a :: b :: l') d) with (last (b :: l') d).
  destruct IH as [H|H]; [now left|right; now right].
Qed.

Lemma advance_ordered b history seen arguments :
  transport_ordered b ->
  cursor_le seen (advance seen (b history (pull seen arguments))).
Proof.
  intros Hb. unfold advance, pull.
  destruct (b history _) as [[|u rest]|e] eqn:E;
    try (destruct seen; simpl; lia).
  destruct (Hb _ _ _ _ _ _ (last rest u) E (last_in rest u)) as [H0 Ho].
  rewrite next_offset_spec in Ho.
  destruct seen as [z|]; simpl; [|exact I].
  destruct (Z.eqb_spec z 0); lia.
Qed.

Lemma cursor_le_refl a : cursor_le a a.
Proof. destruct a; simpl; lia. Qed.

Lemma cursor_le_trans a b c : cursor_le a b -> cursor_le b c -> cursor_le a c.
Proof. destruct a, b, c; simpl; try tauto; lia. Qed.

Lemma call_tool_cursor_le w st name arguments :
  transport_ordered (bot w) ->
  cursor_le (last_update_id st) (last_update_id (snd (call_tool name arguments w st))).
Proof.
  intros Hb.
  destruct (String.eqb_spec name "telegram_get_updates") as [->|Hn].
  - destruct (call_tool_get_updates w st arguments) as [H _]. rewrite H.
    destruct (fst (connect w st)); [now apply advance_ordered|apply cursor_le_refl].
  - rewrite (kc_call_tool name arguments Hn). apply cursor_le_refl.
Qed.

(** C3, amended. The cursor is written by [telegram_get_updates] alone;
    that request leaves in it the identifier of the last update of the
    batch when the remote call returned a batch that is not empty, and what
    was there before when the session could not be created, the remote call
    raised or the batch was empty, so that the next pull repeats the offset;
    and over any sequence of requests the cursor does not decrease as long
    as the remote side returns identifiers that are not negative and not
    below the offset it was given. *)
Theorem cursor_discipline w :
  (forall st name arguments,
      name <> "telegram_get_updates" ->
      last_update_id (snd (call_tool name arguments w st)) = last_update_id st) /\
  (forall st arguments,
      last_update_id (snd (call_tool "telegram_get_updates" arguments w st)) =
        match fst (connect w st) with
        | Ok _ =>
            advance (last_update_id st)
              (bot w (calls st) (pull (last_update_id st) arguments))
        | Raise _ => last_update_id st
        end) /\
  (transport_ordered (bot w) ->
   forall reqs st, cursor_le (last_update_id st) (last_update_id (serve w reqs st))).
Proof.
  split; [|split].
  - intros st name arguments Hn. now apply kc_call_tool.
  - intros st arguments. apply call_tool_get_updates.
  - intros Hb reqs. induction reqs as [|[name arguments] reqs IH]; intros st; simpl.
    + apply cursor_le_refl.
    + eapply cursor_le_trans; [|apply IH]. now apply call_tool_cursor_le.
Qed.

Lemma sample_bot_ordered flag count :
  transport_ordered (sample_bot ordered_batch flag count).
Proof.
  intros history offset limit timeout allowed batch u H Hin.
  simpl in H. injection H as <-.
  destruct Hin as [<-|[]]. simpl.
  destruct offset; lia.
Qed.

Lemma cursor_discipline_witness :
  cursor_le (Some 5)
    (last_update_id
       (serve (sample_world (sample_bot ordered_batch true (Ok 3)))
          [("telegram_get_updates", []); ("telegram_get_bot_info", []);
           ("telegram_get_updates", [])]
          (ready None (Some 5)))).
Proof.
  exact (proj2 (proj2 (cursor_discipline
                         (sample_world (sample_bot ordered_batch true (Ok 3)))))
           (sample_bot_ordered true (Ok 3))
           [("telegram_get_updates", []); ("telegram_get_bot_info", []);
            ("telegram_get_updates", [])]
           (ready None (Some 5))).
Defined.

(** ** The send methods of the client *)

Lemma to_parse_mode_enum_converted guard parse_mode w st :
  to_parse_mode_enum guard parse_mode w st = (converted guard parse_mode, st).
Proof.
  unfold to_parse_mode_enum, converted, normalize, dot_upper, bind, ret, raise.
  destruct guard; [|reflexivity].
  destruct parse_mode; try reflexivity.
  destruct (upper s =? "MARKDOWN")%string; [reflexivity|].
  destruct (upper s =? "HTML")%string; reflexivity.
Qed.

Lemma converted_string s : converted (truthy (VStr s)) (VStr s) = Ok (normalize s).
Proof. destruct s; reflexivity. Qed.

Lemma normalize_spec s :
  (normalize s = Some MARKDOWN <-> upper s = "MARKDOWN") /\
  (normalize s = Some HTML <-> upper s = "HTML") /\
  (normalize s = None <-> upper s <> "MARKDOWN" /\ upper s <> "HTML").
Proof.
  unfold normalize.
  destruct (String.eqb_spec (upper s) "MARKDOWN") as [E|E].
  - rewrite E. repeat split; try discriminate; tauto.
  - destruct (String.eqb_spec (upper s) "HTML") as [E'|E'];
      repeat split; try discriminate; try tauto; congruence.
Qed.

Lemma send_message_eq self text chat_id parse_mode dn r1 r2 w st :
  let target := py_or chat_id (of_opt_str (default_chat_id self)) in
  send_message self text chat_id parse_mode dn r1 r2 w st =
    if truthy target then
      match slice50 text, converted (truthy parse_mode) parse_mode with
      | Raise e, _ => (Raise e, st)
      | Ok _, Raise e => (Raise e, st)
      | Ok _, Ok p => await (SendMessage target text p dn r1 r2) w st
      end
    else (Raise no_chat_id, st).
Proof.
  intros target. unfold send_message. fold target.
  destruct (truthy target); simpl; [|reflexivity].
  unfold bind, lift. destruct (slice50 text) as [[]|e]; [|reflexivity].
  rewrite log_and_reraise_id. unfold bind.
  rewrite to_parse_mode_enum_converted.
  destruct (converted _ _); reflexivity.
Qed.

Lemma send_photo_eq self photo chat_id caption parse_mode dn w st :
  let target := py_or chat_id (of_opt_str (default_chat_id self)) in
  send_photo self photo chat_id caption parse_mode dn w st =
    if truthy target then
      match converted (truthy parse_mode && truthy caption) parse_mode with
      | Raise e => (Raise e, st)
      | Ok p => await (SendPhoto target photo caption p dn) w st
      end
    else (Raise no_chat_id, st).
Proof.
  intros target. unfold send_photo. fold target.
  destruct (truthy target); simpl; [|reflexivity].
  rewrite log_and_reraise_id. unfold bind.
  rewrite to_parse_mode_enum_converted.
  destruct (converted _ _); reflexivity.
Qed.

Lemma send_document_eq self document chat_id caption parse_mode dn w st :
  let target := py_or chat_id (of_opt_str (default_chat_id self)) in
  send_document self document chat_id caption parse_mode dn w st =
    if truthy target then
      match converted (truthy parse_mode && truthy caption) parse_mode with
      | Raise e => (Raise e, st)
      | Ok p => await (SendDocument target document caption p dn) w st
      end
    else (Raise no_chat_id, st).
Proof.
  intros target. unfold send_document. fold target.
  destruct (truthy target); simpl; [|reflexivity].
  rewrite log_and_reraise_id. unfold bind.
  rewrite to_parse_mode_enum_converted.
  destruct (converted _ _); reflexivity.
Qed.

(** C10. When the caption is absent or empty (Python-false), [send_photo]
    and [send_document] pass no parse mode to the remote call, whatever the
    [parse_mode] argument is: the one remote call they make, once the
    destination is resolved, carries [None]. *)
Theorem caption_gates_parse_mode self file chat_id caption parse_mode dn w st :
  truthy caption = false ->
  let target := py_or chat_id (of_opt_str (default_chat_id self)) in
  send_photo self file chat_id caption parse_mode dn w st =
    (if truthy target then await (SendPhoto target file caption None dn) w st
     else (Raise no_chat_id, st)) /\
  send_document self file chat_id caption parse_mode dn w st =
    (if truthy target then await (SendDocument target file caption None dn) w st
     else (Raise no_chat_id, st)).
Proof.
  intros Hc target. subst target.
  rewrite send_photo_eq, send_document_eq, Hc, andb_false_r. simpl.
  split; reflexivity.
Qed.

Lemma caption_gates_parse_mode_witness :
  calls (snd (send_photo (sample_client None) (VStr "cat.png") (VStr "42") VNone
                (VInt 5) (VBool false)
                (sample_world (sample_bot (fun _ => []) true (Ok 3)))
                (ready None None))) =
    [SendPhoto (VStr "42") (VStr "cat.png") VNone None (VBool false)].
Proof.
  rewrite (proj1 (caption_gates_parse_mode (sample_client None) (VStr "cat.png")
                    (VStr "42") VNone (VInt 5) (VBool false)
                    (sample_world (sample_bot (fun _ => []) true (Ok 3)))
                    (ready None None) eq_refl)).
  reflexivity.
Defined.

(** ** The send handlers of the server *)

Lemma handler_reply {A} method (m : TelegramClient -> M A) (shape : A -> value) w st c :
  client st = Some c ->
  try_except
    (c <- self_client method ;; a <- m c ;; ret [text_content (json_dumps (shape a))])
    failure_reply w st =
  reply_of shape (m c w st).
Proof.
  intros Hc.
  unfold self_client, try_except, bind, get_client, ret, failure_reply, reply_of.
  rewrite Hc. destruct (m c w st) as [[a|e] st']; reflexivity.
Qed.

Lemma _send_message_eq w st c arguments :
  client st = Some c ->
  _send_message arguments w st =
    reply_of sent_text
      (send_message c (get arguments "text") (get arguments "chat_id")
         (get_default arguments "parse_mode" (VStr "Markdown"))
         (get_default arguments "disable_notification" (VBool false))
         VNone VNone w st).
Proof.
  intros Hc.
  exact (handler_reply "send_message"
           (fun c => send_message c (get arguments "text") (get arguments "chat_id")
                       (get_default arguments "parse_mode" (VStr "Markdown"))
                       (get_default arguments "disable_notification" (VBool false))
                       VNone VNone)
           sent_text w st c Hc).
Qed.

Lemma _send_photo_eq w st c arguments :
  client st = Some c ->
  _send_photo arguments w st =
    reply_of (sent_file (get arguments "caption"))
      (send_photo c (get arguments "photo_url") (get arguments "chat_id")
         (get arguments "caption")
         (get_default arguments "parse_mode" (VStr "Markdown"))
         (VBool false) w st).
Proof.
  intros Hc.
  exact (handler_reply "send_photo"
           (fun c => send_photo c (get arguments "photo_url") (get arguments "chat_id")
                       (get arguments "caption")
                       (get_default arguments "parse_mode" (VStr "Markdown"))
                       (VBool false))
           (sent_file (get arguments "caption")) w st c Hc).
Qed.

Lemma _send_document_eq w st c arguments :
  client st = Some c ->
  _send_document arguments w st =
    reply_of (sent_file (get arguments "caption"))
      (send_document c (get arguments "document_url") (get arguments "chat_id")
         (get arguments "caption") (VStr "Markdown") (VBool false) w st).
Proof.
  intros Hc.
  exact (handler_reply "send_document"
           (fun c => send_document c (get arguments "document_url")
                       (get arguments "chat_id") (get arguments "caption")
                       (VStr "Markdown") (VBool false))
           (sent_file (get arguments "caption")) w st c Hc).
Qed.

Lemma call_tool_ready name arguments w st c :
  client st = Some c -> call_tool name arguments w st = dispatch name arguments w st.
Proof. intros Hc. apply call_tool_connected. now apply connect_ready with c. Qed.

Ltac send_cases H :=
  unfold send_tools in H; simpl in H;
  destruct H as [<-|[<-|[<-|[]]]].

(** C5. For the three send tools: the remote send call carries the explicit
    [chat_id] when one is supplied, else the default destination of the
    client; when neither exists the reply is the failure envelope of the
    validation error and no remote call has been made; and a request whose
    arguments have the declared types and whose destination resolves makes
    exactly one remote call, a send to that destination. *)
Theorem destination_resolution w st c name arguments :
  client st = Some c ->
  In name send_tools ->
  let target := destination c arguments in
  let out := call_tool name arguments w st in
  (truthy target = false ->
   out = (Ok [text_content (json_dumps (failure no_chat_id))], st)) /\
  (calls (snd out) = calls st \/
   exists k, calls (snd out) = (calls st ++ [k])%list /\
             is_send k = true /\ call_chat_id k = Some target) /\
  (truthy target = true -> well_typed name arguments = true ->
   exists k, calls (snd out) = (calls st ++ [k])%list /\
             is_send k = true /\ call_chat_id k = Some target).
Proof.
  intros Hc Hn target out. subst out.
  rewrite (call_tool_ready _ _ _ _ _ Hc).
  assert (Ht : target = py_or (get arguments "chat_id") (of_opt_str (default_chat_id c)))
    by reflexivity.
  send_cases Hn.
  - change (dispatch "telegram_send_message" arguments) with (_send_message arguments).
    rewrite (_send_message_eq _ _ _ _ Hc), send_message_eq, <- Ht.
    unfold well_typed. simpl (_ =? _)%string.
    destruct (truthy target); [|simpl; repeat split; auto; discriminate].
    destruct (slice50 (get arguments "text")) as [[]|e] eqn:Hs.
    + destruct (converted _ _) as [p|e] eqn:Hp.
      * unfold await, reply_of.
        assert (exists k,
                   calls (record (SendMessage target (get arguments "text") p
                                    (get_default arguments "disable_notification" (VBool false))
                                    VNone VNone) st) = (calls st ++ [k])%list /\
                   is_send k = true /\ call_chat_id k = Some target)
          by (eexists; repeat split).
        destruct (bot w (calls st) _); simpl; repeat split; auto; discriminate.
      * simpl. repeat split; auto; try discriminate.
        intros _ Hw. exfalso. revert Hp Hw. unfold converted.
        destruct (get_default arguments "parse_mode" (VStr "Markdown"));
          simpl; try discriminate.
        destruct (match s with EmptyString => false | String _ _ => true end);
          discriminate.
    + simpl. repeat split; auto; try discriminate.
      intros _ Hw. exfalso. revert Hs Hw.
      destruct (get_default arguments "parse_mode" (VStr "Markdown")); try discriminate;
        destruct (get arguments "text"); discriminate.
  - change (dispatch "telegram_send_photo" arguments) with (_send_photo arguments).
    rewrite (_send_photo_eq _ _ _ _ Hc), send_photo_eq, <- Ht.
    unfold well_typed. simpl (_ =? _)%string.
    destruct (truthy target); [|simpl; repeat split; auto; discriminate].
    destruct (converted _ _) as [p|e] eqn:Hp.
    + unfold await, reply_of.
      assert (exists k,
                 calls (record (SendPhoto target (get arguments "photo_url")
                                  (get arguments "caption") p (VBool false)) st) =
                   (calls st ++ [k])%list /\
                 is_send k = true /\ call_chat_id k = Some target)
        by (eexists; repeat split).
      destruct (bot w (calls st) _); simpl; repeat split; auto; discriminate.
    + simpl. repeat split; auto; try discriminate.
      intros _ Hw. exfalso. revert Hp Hw. unfold converted.
      destruct (get_default arguments "parse_mode" (VStr "Markdown"));
        simpl; try discriminate.
      destruct (_ && _)%bool; discriminate.
  - change (dispatch "telegram_send_document" arguments) with (_send_document arguments).
    rewrite (_send_document_eq _ _ _ _ Hc), send_document_eq, <- Ht.
    destruct (truthy target); [|simpl; repeat split; auto; discriminate].
    assert (Hp : exists p, converted (truthy (VStr "Markdown") &&
                                      truthy (get arguments "caption"))
                             (VStr "Markdown") = Ok p)
      by (simpl; destruct (truthy _); eexists; reflexivity).
    destruct Hp as [p ->].
    unfold await, reply_of.
    assert (exists k,
               calls (record (SendDocument target (get arguments "document_url")
                                (get arguments "caption") p (VBool false)) st) =
                 (calls st ++ [k])%list /\
               is_send k = true /\ call_chat_id k = Some target)
      by (eexists; repeat split).
    destruct (bot w (calls st) _); simpl; repeat split; auto; discriminate.
Qed.

(** No [chat_id] argument, a default of 99: the message goes to 99. *)
Lemma destination_resolution_witness :
  exists k,
    calls (snd (call_tool "telegram_send_message" [("text", VStr "hi")]
                  (sample_world (sample_bot (fun _ => []) true (Ok 3)))
                  (ready (Some "99") None))) = ([] ++ [k])%list /\
    is_send k = true /\ call_chat_id k = Some (VStr "99").
Proof.
  exact (proj2 (proj2 (destination_resolution
                         (sample_world (sample_bot (fun _ => []) true (Ok 3)))
                         (ready (Some "99") None) (sample_client (Some "99"))
                         "telegram_send_message" [("text", VStr "hi")]
                         eq_refl (or_introl eq_refl)))
           eq_refl eq_refl).
Defined.

(** ** Parse modes *)

(** C6, as the claim states it, fails: a parse mode outside the allowed set
    is not rejected. The message is sent, with no parse mode, and the reply
    is the success payload. *)
Lemma unknown_parse_mode_is_sent :
  call_tool "telegram_send_message"
    [("text", VStr "hi"); ("chat_id", VStr "42"); ("parse_mode", VStr "bogus")]
    (sample_world (sample_bot (fun _ => []) true (Ok 3))) (ready None None) =
  (Ok [text_content (json_dumps (sent_text sample_message))],
   record (SendMessage (VStr "42") (VStr "hi") None (VBool false) VNone VNone)
     (ready None None)).
Proof. reflexivity. Qed.

(** C6, amended. Once the destination resolves, a [parse_mode] that is a
    string is never refused and never passed on as it is: the remote call is
    made with [MARKDOWN] when the string in upper case is MARKDOWN, with
    [HTML] when it is HTML, and with no parse mode otherwise; [send_photo]
    and [send_document] do so only when there is a caption. *)
Theorem parse_mode_normalized self s text file chat_id caption dn r1 r2 w st :
  truthy (py_or chat_id (of_opt_str (default_chat_id self))) = true ->
  let target := py_or chat_id (of_opt_str (default_chat_id self)) in
  send_message self (VStr text) chat_id (VStr s) dn r1 r2 w st =
    await (SendMessage target (VStr text) (normalize s) dn r1 r2) w st /\
  send_photo self file chat_id caption (VStr s) dn w st =
    await (SendPhoto target file caption
             (if truthy caption then normalize s else None) dn) w st /\
  send_document self file chat_id caption (VStr s) dn w st =
    await (SendDocument target file caption
             (if truthy caption then normalize s else None) dn) w st /\
  (normalize s = Some MARKDOWN <-> upper s = "MARKDOWN") /\
  (normalize s = Some HTML <-> upper s = "HTML") /\
  (normalize s = None <-> upper s <> "MARKDOWN" /\ upper s <> "HTML").
Proof.
  intros Ht target. subst target.
  rewrite send_message_eq, send_photo_eq, send_document_eq, Ht.
  rewrite converted_string. simpl slice50. cbv iota.
  assert (Hc : converted (truthy (VStr s) && truthy caption) (VStr s) =
               Ok (if truthy caption then normalize s else None)).
  { destruct (truthy caption).
    - rewrite andb_true_r. apply converted_string.
    - rewrite andb_false_r. reflexivity. }
  rewrite Hc.
  do 3 (split; [reflexivity|]). apply normalize_spec.
Qed.

Lemma parse_mode_normalized_witness :
  send_message (sample_client None) (VStr "hi") (VStr "42") (VStr "hTmL")
    (VBool false) VNone VNone
    (sample_world (sample_bot (fun _ => []) true (Ok 3))) (ready None None) =
  await (SendMessage (VStr "42") (VStr "hi") (Some HTML) (VBool false) VNone VNone)
    (sample_world (sample_bot (fun _ => []) true (Ok 3))) (ready None None).
Proof.
  exact (proj1 (parse_mode_normalized (sample_client None) "hTmL" "hi" VNone
                  (VStr "42") VNone (VBool false) VNone VNone
                  (sample_world (sample_bot (fun _ => []) true (Ok 3)))
                  (ready None None) eq_refl)).
Defined.

Example normalize_examples :
  normalize "Markdown" = Some MARKDOWN /\ normalize "markdown" = Some MARKDOWN /\
  normalize "HTML" = Some HTML /\ normalize "html" = Some HTML /\
  normalize "None" = None /\ normalize "bogus" = None.
Proof. repeat split. Qed.

(** ** Webhooks *)

(** C8, as the claim states it, fails: the remote call returns [False]
    without raising, and the [success] field of the reply is [false]. *)
Lemma webhook_flag_false_without_raise :
  let w := sample_world (sample_bot (fun _ => []) false (Ok 3)) in
  bot w [] (SetWebhook (VStr "https://example.test/hook") VNone VNone VNone VNone) =
    Ok false /\
  fst (call_tool "telegram_set_webhook" [("url", VStr "https://example.test/hook")]
         w (ready None None)) =
    Ok [text_content
          (json_dumps
             (VDict [("success", VBool false);
                     ("webhook_url", VStr "https://example.test/hook");
                     ("message", VStr "Failed to set webhook")]))] /\
  ~ is_success_envelope
      [text_content
         (json_dumps
            (VDict [("success", VBool false);
                    ("webhook_url", VStr "https://example.test/hook");
                    ("message", VStr "Failed to set webhook")]))].
Proof.
  repeat split.
  intros (d & H & Hs). injection H as <-. discriminate Hs.
Qed.

(** C8, amended. When the remote webhook call returns without raising, the
    boolean it returns is both the [success] field of the reply and what
    selects the message; the reply has no other flag. *)
Theorem webhook_flag_is_transport_result w st c arguments b :
  client st = Some c ->
  (bot w (calls st)
     (SetWebhook (get arguments "url") VNone VNone VNone
        (get arguments "allowed_updates")) = Ok b ->
   fst (call_tool "telegram_set_webhook" arguments w st) =
     Ok [text_content
           (json_dumps
              (VDict [("success", VBool b);
                      ("webhook_url", get arguments "url");
                      ("message",
                       VStr (if b then "Webhook set successfully"
                             else "Failed to set webhook"))]))]) /\
  (bot w (calls st) DeleteWebhook = Ok b ->
   fst (call_tool "telegram_delete_webhook" arguments w st) =
     Ok [text_content
           (json_dumps
              (VDict [("success", VBool b);
                      ("message",
                       VStr (if b then "Webhook deleted successfully"
                             else "Failed to delete webhook"))]))]).
Proof.
  intros Hc. split; intros Hb; rewrite (call_tool_ready _ _ _ _ _ Hc).
  - change (dispatch "telegram_set_webhook" arguments) with (_set_webhook arguments).
    unfold _set_webhook, set_webhook_body, self_client, set_webhook,
      try_except, bind, get_client, ret.
    rewrite Hc, log_and_reraise_id. unfold await.
    rewrite Hb. reflexivity.
  - change (dispatch "telegram_delete_webhook" arguments)
      with (_delete_webhook arguments).
    unfold _delete_webhook, delete_webhook_body, self_client, delete_webhook,
      try_except, bind, get_client, ret.
    rewrite Hc, log_and_reraise_id. unfold await.
    rewrite Hb. reflexivity.
Qed.

Lemma webhook_flag_is_transport_result_witness :
  fst (call_tool "telegram_delete_webhook" []
         (sample_world (sample_bot (fun _ => []) false (Ok 3))) (ready None None)) =
    Ok [text_content
          (json_dumps
             (VDict [("success", VBool false);
                     ("message", VStr "Failed to delete webhook")]))].
Proof.
  exact (proj2 (webhook_flag_is_transport_result
                  (sample_world (sample_bot (fun _ => []) false (Ok 3)))
                  (ready None None) (sample_client None) [] false eq_refl)
           eq_refl).
Defined.

(** ** Chat information *)

(** C9, as the claim states it, fails in one point: the member count
    raises, the reply holds the primary fields and nothing else, so it
    carries no [success] field. *)
Lemma chat_info_reply_has_no_success :
  let w := sample_world
             (sample_bot (fun _ => []) true (Raise (TransportError "Bad Request"))) in
  fst (call_tool "telegram_get_chat_info" [("chat_id", VStr "42")] w (ready None None)) =
    Ok [text_content (json_dumps (VDict (chat_fields sample_chat)))] /\
  ~ is_success_envelope [text_content (json_dumps (VDict (chat_fields sample_chat)))].
Proof.
  split; [reflexivity|].
  intros (d & H & Hs). injection H as <-. discriminate Hs.
Qed.

(** C9, amended. When the chat lookup returns and the member-count lookup
    raises, the request still returns the payload of the chat: exactly the
    seven primary fields, with no [member_count], no [error] and no
    [success] field. *)
Theorem chat_info_without_member_count w st c arguments ch e :
  client st = Some c ->
  bot w (calls st) (GetChat (get arguments "chat_id")) = Ok ch ->
  bot w (calls st ++ [GetChat (get arguments "chat_id")])%list
    (GetChatMemberCount (get arguments "chat_id")) = Raise e ->
  call_tool "telegram_get_chat_info" arguments w st =
    (Ok [text_content (json_dumps (VDict (chat_fields ch)))],
     record (GetChatMemberCount (get arguments "chat_id"))
       (record (GetChat (get arguments "chat_id")) st)) /\
  map fst (chat_fields ch) =
    ["id"; "type"; "title"; "username"; "first_name"; "last_name"; "description"].
Proof.
  intros Hc Hch Hcount. split; [|reflexivity].
  rewrite (call_tool_ready _ _ _ _ _ Hc).
  change (dispatch "telegram_get_chat_info" arguments) with (_get_chat_info arguments).
  unfold _get_chat_info, get_chat_info_body, self_client, get_chat,
    get_chat_member_count, try_except, bind, get_client, ret.
  rewrite Hc, log_and_reraise_id. unfold await at 1. rewrite Hch.
  change (client (record (GetChat (get arguments "chat_id")) st)) with (client st).
  rewrite Hc, log_and_reraise_id. unfold await.
  change (calls (record (GetChat (get arguments "chat_id")) st))
    with (calls st ++ [GetChat (get arguments "chat_id")])%list.
  rewrite Hcount. reflexivity.
Qed.

Lemma chat_info_without_member_count_witness :
  fst (call_tool "telegram_get_chat_info" [("chat_id", VStr "42")]
         (sample_world
            (sample_bot (fun _ => []) true (Raise (TransportError "Bad Request"))))
         (ready None None)) =
    Ok [text_content (json_dumps (VDict (chat_fields sample_chat)))].
Proof.
  exact (f_equal fst
           (proj1 (chat_info_without_member_count
                     (sample_world
                        (sample_bot (fun _ => []) true
                           (Raise (TransportError "Bad Request"))))
                     (ready None None) (sample_client None) [("chat_id", VStr "42")]
                     sample_chat (TransportError "Bad Request")
                     eq_refl eq_refl eq_refl))).
Defined.

(** With a member count that answers, the field is added at the end. *)
Example chat_info_with_member_count :
  fst (call_tool "telegram_get_chat_info" [("chat_id", VStr "42")]
         (sample_world (sample_bot (fun _ => []) true (Ok 3))) (ready None None)) =
    Ok [text_content
          (json_dumps (VDict (chat_fields sample_chat ++ [("member_count", VInt 3)])))].
Proof. reflexivity. Qed.

(** ** Success payloads *)

Lemma body_returns {A} method (m : TelegramClient -> M A) (shape : A -> value) w st r st' :
  (c <- self_client method ;; a <- m c ;; ret [text_content (json_dumps (shape a))])
    w st = (Ok r, st') ->
  exists a, r = [text_content (json_dumps (shape a))].
Proof.
  unfold self_client, bind, get_client, ret, raise.
  destruct (client st) as [c|]; [|discriminate].
  destruct (m c w st) as [[a|e] st1]; [|discriminate].
  intros [= <- _]. eauto.
Qed.

Lemma get_updates_body_returns arguments w st r st' :
  get_updates_body arguments w st = (Ok r, st') ->
  exists l, r = [text_content
                   (json_dumps
                      (VDict [("updates", VList l);
                              ("count", VInt (Z.of_nat (length l)))]))].
Proof.
  unfold get_updates_body, self_client, bind, get_client, get_last_update_id, ret, raise.
  destruct (client st) as [c|]; [|discriminate].
  destruct (get_updates c _ _ _ _ w st) as [[[|u rest]|e] st1]; try discriminate.
  intros [= <- _]. now exists [].
Qed.

Lemma get_chat_info_body_returns arguments w st r st' :
  get_chat_info_body arguments w st = (Ok r, st') ->
  exists ch extra,
    r = [text_content (json_dumps (VDict (chat_fields ch ++ extra)))] /\
    (extra = [] \/ exists n, extra = [("member_count", VInt n)]).
Proof.
  unfold get_chat_info_body, self_client, try_except, bind, get_client, ret, raise.
  destruct (client st) as [c|]; [|discriminate].
  destruct (get_chat c _ w st) as [[ch|e] st1]; [|discriminate].
  destruct (client st1) as [c'|].
  - destruct (get_chat_member_count c' _ w st1) as [[n|e] st2]; intros [= <- _].
    + exists ch, [("member_count", VInt n)]. eauto.
    + exists ch, []. rewrite app_nil_r. auto.
  - intros [= <- _]. exists ch, []. rewrite app_nil_r. auto.
Qed.

Lemma get_webhook_info_returns c w st info st' :
  get_webhook_info c w st = (Ok info, st') -> lookup info "success" = None.
Proof.
  unfold get_webhook_info. rewrite log_and_reraise_id. unfold bind, await, ret.
  destruct (bot w (calls st) GetWebhookInfo); [|discriminate].
  intros [= <- _]. reflexivity.
Qed.

Lemma get_webhook_info_body_returns arguments w st r st' :
  get_webhook_info_body arguments w st = (Ok r, st') ->
  exists d, r = [text_content (json_dumps (VDict d))] /\ lookup d "success" = None.
Proof.
  unfold get_webhook_info_body, self_client, bind, get_client, ret, raise.
  destruct (client st) as [c|]; [|discriminate].
  destruct (get_webhook_info c w st) as [[info|e] st1] eqn:E; [|discriminate].
  intros [= <- _]. exists info. split; [reflexivity|].
  now apply get_webhook_info_returns in E.
Qed.

(** C7, as the claim states it, fails: [telegram_get_bot_info] succeeds and
    its reply has no [success] field. *)
Lemma bot_info_reply_has_no_success :
  let w := sample_world (sample_bot (fun _ => []) true (Ok 3)) in
  fst (call_tool "telegram_get_bot_info" [] w (ready None None)) =
    Ok [text_content
          (json_dumps
             (VDict [("id", VInt 1); ("is_bot", VBool true);
                     ("first_name", VStr "bot"); ("username", VStr "a_bot");
                     ("can_join_groups", VBool true);
                     ("can_read_all_group_messages", VBool false);
                     ("supports_inline_queries", VBool false)]))] /\
  ~ is_success_envelope
      [text_content
         (json_dumps
            (VDict [("id", VInt 1); ("is_bot", VBool true);
                    ("first_name", VStr "bot"); ("username", VStr "a_bot");
                    ("can_join_groups", VBool true);
                    ("can_read_all_group_messages", VBool false);
                    ("supports_inline_queries", VBool false)]))].
Proof.
  split; [reflexivity|].
  intros (d & H & Hs). injection H as <-. discriminate Hs.
Qed.

(** C7, amended. With a client at hand, the payload of a successful
    request is decided by what the remote side returned. The send tools
    write [success: true] with the identifiers of the message returned and
    of its chat, and one more field: the date of the message for
    [telegram_send_message], the truth of the caption argument for
    [telegram_send_photo] and [telegram_send_document]. The two webhook
    tools write the boolean the remote side returned as [success], with the
    message it selects. [telegram_get_updates] (on an empty batch),
    [telegram_get_bot_info], [telegram_get_chat_info] and
    [telegram_get_webhook_info] write their payload, in which no field is
    named [success]. *)
Theorem success_payloads w st c arguments :
  client st = Some c ->
  let target := py_or (get arguments "chat_id") (of_opt_str (default_chat_id c)) in
  let caption := get arguments "caption" in
  let reply name := fst (call_tool name arguments w st) in
  let json obj := Ok [text_content (json_dumps obj)] in
  (forall p m,
      first_call "telegram_send_message" c (last_update_id st) arguments =
        Some (Ok (SendMessage target (get arguments "text") p
                    (get_default arguments "disable_notification" (VBool false))
                    VNone VNone)) ->
      bot w (calls st)
        (SendMessage target (get arguments "text") p
           (get_default arguments "disable_notification" (VBool false))
           VNone VNone) = Ok m ->
      reply "telegram_send_message" =
        json (VDict [("success", VBool true);
                     ("message_id", VInt (message_id m));
                     ("chat_id", VInt (chat_id_ (chat m)));
                     ("date", of_opt_str (option_map isoformat (date m)))])) /\
  (forall p m,
      first_call "telegram_send_photo" c (last_update_id st) arguments =
        Some (Ok (SendPhoto target (get arguments "photo_url") caption p (VBool false))) ->
      bot w (calls st)
        (SendPhoto target (get arguments "photo_url") caption p (VBool false)) = Ok m ->
      reply "telegram_send_photo" =
        json (VDict [("success", VBool true);
                     ("message_id", VInt (message_id m));
                     ("chat_id", VInt (chat_id_ (chat m)));
                     ("has_caption", VBool (truthy caption))])) /\
  (forall p m,
      first_call "telegram_send_document" c (last_update_id st) arguments =
        Some (Ok (SendDocument target (get arguments "document_url") caption p
                    (VBool false))) ->
      bot w (calls st)
        (SendDocument target (get arguments "document_url") caption p (VBool false))
        = Ok m ->
      reply "telegram_send_document" =
        json (VDict [("success", VBool true);
                     ("message_id", VInt (message_id m));
                     ("chat_id", VInt (chat_id_ (chat m)));
                     ("has_caption", VBool (truthy caption))])) /\
  (forall b,
      bot w (calls st)
        (SetWebhook (get arguments "url") VNone VNone VNone
           (get arguments "allowed_updates")) = Ok b ->
      reply "telegram_set_webhook" =
        json (VDict [("success", VBool b);
                     ("webhook_url", get arguments "url");
                     ("message",
                      VStr (if b then "Webhook set successfully"
                            else "Failed to set webhook"))])) /\
  (forall b,
      bot w (calls st) DeleteWebhook = Ok b ->
      reply "telegram_delete_webhook" =
        json (VDict [("success", VBool b);
                     ("message",
                      VStr (if b then "Webhook deleted successfully"
                            else "Failed to delete webhook"))])) /\
  (bot w (calls st) (pull (last_update_id st) arguments) = Ok [] ->
   reply "telegram_get_updates" =
     json (VDict [("updates", VList []); ("count", VInt 0)])) /\
  (forall u,
      bot w (calls st) GetMe = Ok u ->
      reply "telegram_get_bot_info" = json (VDict (bot_info_fields u)) /\
      lookup (bot_info_fields u) "success" = None) /\
  (forall ch,
      bot w (calls st) (GetChat (get arguments "chat_id")) = Ok ch ->
      exists extra,
        reply "telegram_get_chat_info" = json (VDict (chat_fields ch ++ extra)) /\
        match bot w (calls st ++ [GetChat (get arguments "chat_id")])%list
                (GetChatMemberCount (get arguments "chat_id")) with
        | Ok n => extra = [("member_count", VInt n)]
        | Raise _ => extra = []
        end /\
        lookup (chat_fields ch ++ extra) "success" = None) /\
  (forall info,
      bot w (calls st) GetWebhookInfo = Ok info ->
      reply "telegram_get_webhook_info" = json (VDict (webhook_fields info)) /\
      lookup (webhook_fields info) "success" = None).
Proof.
  intros Hc target caption reply json. subst target caption reply json. cbv beta.
  rewrite !(call_tool_ready _ _ _ _ _ Hc).
  repeat split.
  - intros p m Hq Hm.
    change (dispatch "telegram_send_message" arguments) with (_send_message arguments).
    rewrite (_send_message_eq _ _ _ _ Hc), send_message_eq.
    unfold first_call in Hq. simpl (_ =? _)%string in Hq. cbv iota in Hq.
    destruct (truthy _); [|discriminate Hq].
    destruct (slice50 _) as [[]|x]; [|discriminate Hq].
    destruct (converted _ _) as [p'|x]; [|discriminate Hq].
    injection Hq as ->. unfold await, reply_of. now rewrite Hm.
  - intros p m Hq Hm.
    change (dispatch "telegram_send_photo" arguments) with (_send_photo arguments).
    rewrite (_send_photo_eq _ _ _ _ Hc), send_photo_eq.
    unfold first_call in Hq. simpl (_ =? _)%string in Hq. cbv iota in Hq.
    destruct (truthy _); [|discriminate Hq].
    destruct (converted _ _) as [p'|x]; [|discriminate Hq].
    injection Hq as ->. unfold await, reply_of. now rewrite Hm.
  - intros p m Hq Hm.
    change (dispatch "telegram_send_document" arguments)
      with (_send_document arguments).
    rewrite (_send_document_eq _ _ _ _ Hc), send_document_eq.
    unfold first_call in Hq. simpl (_ =? _)%string in Hq. cbv iota in Hq.
    destruct (truthy _); [|discriminate Hq].
    destruct (converted _ _) as [p'|x]; [|discriminate Hq].
    injection Hq as ->. unfold await, reply_of. now rewrite Hm.
  - intros b Hb.
    change (dispatch "telegram_set_webhook" arguments) with (_set_webhook arguments).
    unfold _set_webhook, set_webhook_body, self_client, set_webhook,
      try_except, bind, get_client, ret.
    rewrite Hc, log_and_reraise_id. unfold await. now rewrite Hb.
  - intros b Hb.
    change (dispatch "telegram_delete_webhook" arguments)
      with (_delete_webhook arguments).
    unfold _delete_webhook, delete_webhook_body, self_client, delete_webhook,
      try_except, bind, get_client, ret.
    rewrite Hc, log_and_reraise_id. unfold await. now rewrite Hb.
  - intros Hb.
    change (dispatch "telegram_get_updates" arguments) with (_get_updates arguments).
    unfold _get_updates, try_except, get_updates_body, self_client, bind, get_client,
      get_last_update_id, get_updates, ret.
    rewrite Hc, log_and_reraise_id. unfold await, pull in *. now rewrite Hb.
  - change (dispatch "telegram_get_bot_info" arguments) with (_get_bot_info arguments).
    unfold _get_bot_info, get_bot_info_body, self_client, get_me,
      try_except, bind, get_client, ret.
    rewrite Hc, log_and_reraise_id. unfold await. now rewrite H.
  - intros ch Hch.
    change (dispatch "telegram_get_chat_info" arguments)
      with (_get_chat_info arguments).
    unfold _get_chat_info, get_chat_info_body, self_client, get_chat,
      get_chat_member_count, try_except, bind, get_client, ret.
    rewrite Hc, log_and_reraise_id. unfold await at 1. rewrite Hch.
    change (client (record (GetChat (get arguments "chat_id")) st)) with (client st).
    rewrite Hc, log_and_reraise_id. unfold await.
    change (calls (record (GetChat (get arguments "chat_id")) st))
      with (calls st ++ [GetChat (get arguments "chat_id")])%list.
    destruct (bot w _ (GetChatMemberCount _)) as [n|x].
    + exists [("member_count", VInt n)]. repeat split.
    + exists []. rewrite app_nil_r. repeat split.
  - change (dispatch "telegram_get_webhook_info" arguments)
      with (_get_webhook_info arguments).
    unfold _get_webhook_info, get_webhook_info_body, self_client, get_webhook_info,
      try_except, bind, get_client, ret.
    rewrite Hc, log_and_reraise_id. unfold bind, await. now rewrite H.
Qed.

Lemma success_payloads_witness :
  fst (call_tool "telegram_set_webhook" [("url", VStr "https://example.test/hook")]
         (sample_world (sample_bot (fun _ => []) true (Ok 3))) (ready None None)) =
    Ok [text_content
          (json_dumps
             (VDict [("success", VBool true);
                     ("webhook_url", VStr "https://example.test/hook");
                     ("message", VStr "Webhook set successfully")]))].
Proof.
  exact (proj1 (proj2 (proj2 (proj2
           (success_payloads (sample_world (sample_bot (fun _ => []) true (Ok 3)))
              (ready None None) (sample_client None)
              [("url", VStr "https://example.test/hook")] eq_refl))))
           true eq_refl).
Defined.

(** ** Failures of a request *)

Lemma format_updates_raises u rest w st :
  format_updates (u :: rest) w st = (Raise no_update_type, st).
Proof. reflexivity. Qed.

(** C1. For each of the nine tools, once the session exists or has been
    created: when the client refuses the arguments (validation: no
    destination, a text that cannot be sliced, a parse mode that is not a
    string) the reply of [call_tool] is returned normally, is the one object
    [{"success": false, "error": str(e)}] and no remote call has been made;
    when the remote call of the tool raises [e] (transport), the reply is
    returned normally and is the same object with the text of [e]. The two
    kinds of failure differ in the error text only. *)
Theorem call_tool_failure_envelope w st st1 c name arguments :
  In name catalog ->
  connect w st = (Ok tt, st1) ->
  client st1 = Some c ->
  match first_call name c (last_update_id st1) arguments with
  | Some (Raise e) =>
      call_tool name arguments w st =
        (Ok [text_content
               (json_dumps (VDict [("success", VBool false); ("error", VStr (str e))]))],
         st1)
  | Some (Ok q) =>
      forall e,
        bot w (calls st1) q = Raise e ->
        call_tool name arguments w st =
          (Ok [text_content
                 (json_dumps (VDict [("success", VBool false); ("error", VStr (str e))]))],
           record q st1)
  | None => False
  end.
Proof.
  intros Hn Hconn Hc.
  rewrite (call_tool_connected _ _ _ _ _ Hconn).
  unfold catalog in Hn. simpl in Hn.
  destruct Hn as [<-|[<-|[<-|[<-|[<-|[<-|[<-|[<-|[<-|[]]]]]]]]]];
    unfold first_call; simpl (_ =? _)%string; cbv iota.
  - change (dispatch "telegram_send_message" arguments) with (_send_message arguments).
    rewrite (_send_message_eq _ _ _ _ Hc), send_message_eq.
    destruct (truthy _); [|reflexivity].
    destruct (slice50 _) as [[]|x]; [|reflexivity].
    destruct (converted _ _) as [p|x]; [|reflexivity].
    intros e He. unfold await, reply_of. now rewrite He.
  - change (dispatch "telegram_send_photo" arguments) with (_send_photo arguments).
    rewrite (_send_photo_eq _ _ _ _ Hc), send_photo_eq.
    destruct (truthy _); [|reflexivity].
    destruct (converted _ _) as [p|x]; [|reflexivity].
    intros e He. unfold await, reply_of. now rewrite He.
  - change (dispatch "telegram_send_document" arguments)
      with (_send_document arguments).
    rewrite (_send_document_eq _ _ _ _ Hc), send_document_eq.
    destruct (truthy _); [|reflexivity].
    destruct (converted _ _) as [p|x]; [|reflexivity].
    intros e He. unfold await, reply_of. now rewrite He.
  - change (dispatch "telegram_get_updates" arguments) with (_get_updates arguments).
    intros e He.
    unfold _get_updates, try_except, get_updates_body, self_client, bind, get_client,
      get_last_update_id, get_updates, ret, failure_reply.
    rewrite Hc, log_and_reraise_id. unfold await, pull in *. now rewrite He.
  - change (dispatch "telegram_get_bot_info" arguments) with (_get_bot_info arguments).
    intros e He.
    unfold _get_bot_info, get_bot_info_body, self_client, get_me,
      try_except, bind, get_client, ret, failure_reply.
    rewrite Hc, log_and_reraise_id. unfold await. now rewrite He.
  - change (dispatch "telegram_get_chat_info" arguments)
      with (_get_chat_info arguments).
    intros e He.
    unfold _get_chat_info, get_chat_info_body, self_client, get_chat,
      try_except, bind, get_client, ret, failure_reply.
    rewrite Hc, log_and_reraise_id. unfold await. now rewrite He.
  - change (dispatch "telegram_set_webhook" arguments) with (_set_webhook arguments).
    intros e He.
    unfold _set_webhook, set_webhook_body, self_client, set_webhook,
      try_except, bind, get_client, ret, failure_reply.
    rewrite Hc, log_and_reraise_id. unfold await. now rewrite He.
  - change (dispatch "telegram_delete_webhook" arguments)
      with (_delete_webhook arguments).
    intros e He.
    unfold _delete_webhook, delete_webhook_body, self_client, delete_webhook,
      try_except, bind, get_client, ret, failure_reply.
    rewrite Hc, log_and_reraise_id. unfold await. now rewrite He.
  - change (dispatch "telegram_get_webhook_info" arguments)
      with (_get_webhook_info arguments).
    intros e He.
    unfold _get_webhook_info, get_webhook_info_body, self_client, get_webhook_info,
      try_except, bind, get_client, ret, failure_reply.
    rewrite Hc, log_and_reraise_id. unfold bind, await. now rewrite He.
Qed.

(** A transport failure: the remote side rejects [get_me], on the request
    that also creates the session. *)
Lemma call_tool_failure_envelope_witness :
  call_tool "telegram_get_bot_info" [] (sample_world failing_bot) init_state =
    (Ok [text_content
           (json_dumps
              (VDict [("success", VBool false);
                      ("error", VStr "Bad Request: chat not found")]))],
     {| client := Some (sample_client None); last_update_id := None;
        calls := [GetMe] |}).
Proof.
  exact (call_tool_failure_envelope (sample_world failing_bot) init_state
           {| client := Some (sample_client None); last_update_id := None;
              calls := [] |}
           (sample_client None) "telegram_get_bot_info" []
           (or_intror (or_intror (or_intror (or_intror (or_introl eq_refl)))))
           eq_refl eq_refl
           (TransportError "Bad Request: chat not found") eq_refl).
Defined.

(** * Further properties of the code *)

(** ** The declared tools and the dispatcher *)

Lemma list_tools_names : map tool_name list_tools = catalog.
Proof. reflexivity. Qed.

Lemma body_reply_json name body arguments w st r st' :
  body_of name = Some body ->
  body arguments w st = (Ok r, st') ->
  exists obj, r = [text_content (json_dumps obj)].
Proof.
  intros Hb Hr. unfold body_of in Hb.
  repeat match type of Hb with
         | (if (?a =? ?b)%string then _ else _) = _ =>
             destruct (String.eqb_spec a b) as [->|?]; [injection Hb as <-|]
         end; try discriminate.
  - apply (body_returns "send_message"
             (fun c => send_message c (get arguments "text") (get arguments "chat_id")
                         (get_default arguments "parse_mode" (VStr "Markdown"))
                         (get_default arguments "disable_notification" (VBool false))
                         VNone VNone) sent_text) in Hr.
    destruct Hr as [m ->]. eauto.
  - apply (body_returns "send_photo"
             (fun c => send_photo c (get arguments "photo_url") (get arguments "chat_id")
                         (get arguments "caption")
                         (get_default arguments "parse_mode" (VStr "Markdown"))
                         (VBool false))
             (sent_file (get arguments "caption"))) in Hr.
    destruct Hr as [m ->]. eauto.
  - apply (body_returns "send_document"
             (fun c => send_document c (get arguments "document_url")
                         (get arguments "chat_id") (get arguments "caption")
                         (VStr "Markdown") (VBool false))
             (sent_file (get arguments "caption"))) in Hr.
    destruct Hr as [m ->]. eauto.
  - apply get_updates_body_returns in Hr. destruct Hr as [l ->]. eauto.
  - unfold get_bot_info_body, self_client, bind, get_client, ret, raise in Hr.
    destruct (client st) as [c|]; [|discriminate].
    destruct (get_me c w st) as [[u|e] st1]; [|discriminate].
    injection Hr as <- _. eauto.
  - apply get_chat_info_body_returns in Hr.
    destruct Hr as (ch & extra & -> & _). eauto.
  - unfold set_webhook_body, self_client, bind, get_client, ret, raise in Hr.
    destruct (client st) as [c|]; [|discriminate].
    destruct (set_webhook c _ _ _ _ _ w st) as [[b|e] st1]; [|discriminate].
    injection Hr as <- _. eauto.
  - unfold delete_webhook_body, self_client, bind, get_client, ret, raise in Hr.
    destruct (client st) as [c|]; [|discriminate].
    destruct (delete_webhook c w st) as [[b|e] st1]; [|discriminate].
    injection Hr as <- _. eauto.
  - apply get_webhook_info_body_returns in Hr. destruct Hr as (d & -> & _). eauto.
Qed.

(** X1. The names [list_tools] declares are pairwise distinct, and they
    are exactly the names the chain of comparisons of [call_tool] sends to
    a handler: a declared name is answered with one serialised JSON value,
    any other name with the sentence [Unknown tool: <name>]. *)
Theorem declared_tools_are_the_dispatched_ones name arguments w st :
  NoDup (map tool_name list_tools) /\
  (In name (map tool_name list_tools) <->
   exists obj, fst (dispatch name arguments w st) = Ok [text_content (json_dumps obj)]) /\
  (~ In name (map tool_name list_tools) <->
   fst (dispatch name arguments w st) =
     Ok [text_content (plain ("Unknown tool: " ++ name))]).
Proof.
  rewrite list_tools_names.
  assert (Hin : In name catalog ->
                exists obj, fst (dispatch name arguments w st) =
                            Ok [text_content (json_dumps obj)]).
  { intros Hn. destruct (body_of_catalog _ Hn) as [body Hb].
    rewrite (dispatch_known _ _ _ Hb). unfold try_except.
    destruct (body arguments w st) as [[r|e] st'] eqn:E.
    - destruct (body_reply_json _ _ _ _ _ _ _ Hb E) as [obj ->]. now exists obj.
    - unfold failure_reply, ret. simpl. eauto. }
  assert (Hout : ~ In name catalog ->
                 fst (dispatch name arguments w st) =
                 Ok [text_content (plain ("Unknown tool: " ++ name))]).
  { intros Hn. now rewrite (dispatch_unknown _ _ Hn). }
  assert (Hdec : In name catalog \/ ~ In name catalog).
  { destruct (in_dec string_dec name catalog); auto. }
  split; [|split; split].
  - unfold catalog.
    repeat (constructor;
            [simpl; intros H; repeat (destruct H as [H|H]; [discriminate H|]); exact H|]).
    constructor.
  - exact Hin.
  - intros [obj Ho]. destruct Hdec as [H|H]; [exact H|].
    rewrite (Hout H) in Ho. discriminate Ho.
  - exact Hout.
  - intros Hp Hn. destruct (Hin Hn) as [obj Ho]. rewrite Hp in Ho. discriminate Ho.
Qed.

(** ** Defaults and required fields *)

Lemma lookup_app_other a k k' d :
  k <> k' -> lookup (a ++ [(k, d)]) k' = lookup a k'.
Proof.
  intros Hk. induction a as [|[k0 v0] a IH]; simpl.
  - destruct (String.eqb_spec k k'); [contradiction|reflexivity].
  - now rewrite IH.
Qed.

Lemma lookup_app_same a k d :
  lookup a k = None -> lookup (a ++ [(k, d)]) k = Some d.
Proof.
  induction a as [|[k0 v0] a IH]; simpl.
  - now rewrite String.eqb_refl.
  - destruct (k0 =? k)%string; [discriminate|exact IH].
Qed.

Lemma get_app_other a k k' d : k <> k' -> get (a ++ [(k, d)]) k' = get a k'.
Proof. intros Hk. unfold get. now rewrite lookup_app_other. Qed.

Lemma get_default_app_other a k k' d d' :
  k <> k' -> get_default (a ++ [(k, d)]) k' d' = get_default a k' d'.
Proof. intros Hk. unfold get_default. now rewrite lookup_app_other. Qed.

Lemma get_default_app_same a k d :
  lookup a k = None -> get_default (a ++ [(k, d)]) k d = get_default a k d.
Proof.
  intros Hk. unfold get_default. now rewrite (lookup_app_same _ _ _ Hk), Hk.
Qed.

Ltac other_keys :=
  repeat first
    [ rewrite get_app_other by discriminate
    | rewrite get_default_app_other by discriminate ].

(** X2. The defaults the schemas declare are the ones the handlers apply:
    for every declared tool and every property with a [default], a request
    that leaves the property out is handled exactly as the same request
    with the property set to the declared default. *)
Theorem declared_defaults_are_applied t p d arguments w st :
  In t list_tools ->
  In p (tool_properties t) ->
  prop_default p = Some d ->
  lookup arguments (prop_name p) = None ->
  call_tool (tool_name t) (arguments ++ [(prop_name p, d)]) w st =
    call_tool (tool_name t) arguments w st.
Proof.
  intros Ht Hp Hd Hk. unfold list_tools in Ht. simpl in Ht.
  repeat (destruct Ht as [<-|Ht]); try contradiction; simpl in Hp;
    repeat (destruct Hp as [<-|Hp]); try contradiction;
    try discriminate Hd; injection Hd as <-; simpl in Hk |- *;
    unfold call_tool, dispatch; simpl;
    unfold _send_message, send_message_body, _send_photo, send_photo_body,
      _get_updates, get_updates_body;
    rewrite (get_default_app_same _ _ _ Hk); other_keys; reflexivity.
Qed.

Lemma declared_defaults_are_applied_witness :
  call_tool "telegram_get_updates" ([("timeout", VInt 5)] ++ [("limit", VInt 10)])
    (sample_world (sample_bot (fun _ => [7]) true (Ok 3))) init_state =
  call_tool "telegram_get_updates" [("timeout", VInt 5)]
    (sample_world (sample_bot (fun _ => [7]) true (Ok 3))) init_state.
Proof.
  apply (declared_defaults_are_applied
           {| tool_name := "telegram_get_updates";
              tool_description := "Get recent updates/messages from the Telegram bot";
              tool_properties :=
                [ {| prop_name := "limit"; prop_type := TInteger;
                     prop_description := "Maximum number of updates to retrieve";
                     prop_enum := None; prop_default := Some (VInt 10);
                     prop_minimum := Some 1; prop_maximum := Some 100 |};
                  {| prop_name := "timeout"; prop_type := TInteger;
                     prop_description := "Timeout in seconds for long polling";
                     prop_enum := None; prop_default := Some (VInt 0);
                     prop_minimum := None; prop_maximum := None |} ];
              tool_required := [] |}
           {| prop_name := "limit"; prop_type := TInteger;
              prop_description := "Maximum number of updates to retrieve";
              prop_enum := None; prop_default := Some (VInt 10);
              prop_minimum := Some 1; prop_maximum := Some 100 |}
           (VInt 10) [("timeout", VInt 5)]).
  - unfold list_tools. simpl. tauto.
  - simpl. tauto.
  - reflexivity.
  - reflexivity.
Defined.

(** X3. [telegram_send_message] checks its text only through the slice
    taken for the debug line: when the destination resolves and the text is
    missing ([None]) or is not a string or a list, the reply is the failure
    envelope of Python's own [TypeError] and no remote call is made. *)
Theorem unsliceable_text_is_refused w st c arguments :
  client st = Some c ->
  truthy (destination c arguments) = true ->
  match get arguments "text" with VStr _ | VList _ => False | _ => True end ->
  exists e,
    slice50 (get arguments "text") = Raise e /\
    call_tool "telegram_send_message" arguments w st =
      (Ok [text_content (json_dumps (failure e))], st).
Proof.
  intros Hc Ht Hx.
  rewrite (call_tool_ready _ _ _ _ _ Hc).
  change (dispatch "telegram_send_message" arguments) with (_send_message arguments).
  rewrite (_send_message_eq _ _ _ _ Hc), send_message_eq.
  change (py_or (get arguments "chat_id") (of_opt_str (default_chat_id c)))
    with (destination c arguments).
  rewrite Ht.
  destruct (get arguments "text"); try contradiction; eexists; split; reflexivity.
Qed.

Lemma unsliceable_text_is_refused_witness :
  exists e,
    slice50 (get [("chat_id", VStr "42")] "text") = Raise e /\
    call_tool "telegram_send_message" [("chat_id", VStr "42")]
      (sample_world (sample_bot (fun _ => []) true (Ok 3))) (ready None None) =
      (Ok [text_content (json_dumps (failure e))], ready None None).
Proof.
  exact (unsliceable_text_is_refused
           (sample_world (sample_bot (fun _ => []) true (Ok 3))) (ready None None)
           (sample_client None) [("chat_id", VStr "42")] eq_refl eq_refl I).
Defined.

Lemma get_missing a k : lookup a k = None -> get a k = VNone.
Proof. intros H. unfold get. now rewrite H. Qed.

(** X4. No other required field is checked before the remote call: a
    request that leaves out [chat_id] of [telegram_get_chat_info], [url] of
    [telegram_set_webhook], [photo_url] of [telegram_send_photo] or
    [document_url] of [telegram_send_document] still calls the remote side,
    with [None] in the place of the missing argument. *)
Theorem missing_required_fields_reach_the_transport w st c arguments :
  client st = Some c ->
  (lookup arguments "chat_id" = None ->
   exists rest,
     calls (snd (call_tool "telegram_get_chat_info" arguments w st)) =
       (calls st ++ GetChat VNone :: rest)%list) /\
  (lookup arguments "url" = None ->
   calls (snd (call_tool "telegram_set_webhook" arguments w st)) =
     (calls st ++ [SetWebhook VNone VNone VNone VNone
                     (get arguments "allowed_updates")])%list) /\
  (lookup arguments "photo_url" = None ->
   truthy (destination c arguments) = true ->
   well_typed "telegram_send_photo" arguments = true ->
   exists p,
     calls (snd (call_tool "telegram_send_photo" arguments w st)) =
       (calls st ++ [SendPhoto (destination c arguments) VNone
                       (get arguments "caption") p (VBool false)])%list) /\
  (lookup arguments "document_url" = None ->
   truthy (destination c arguments) = true ->
   exists p,
     calls (snd (call_tool "telegram_send_document" arguments w st)) =
       (calls st ++ [SendDocument (destination c arguments) VNone
                       (get arguments "caption") p (VBool false)])%list).
Proof.
  intros Hc. repeat split.
  - intros Hk. rewrite (call_tool_ready _ _ _ _ _ Hc).
    change (dispatch "telegram_get_chat_info" arguments)
      with (_get_chat_info arguments).
    unfold _get_chat_info, get_chat_info_body, self_client, get_chat,
      get_chat_member_count, try_except, bind, get_client, ret, failure_reply.
    rewrite (get_missing _ _ Hk), Hc, log_and_reraise_id. unfold await at 1.
    destruct (bot w (calls st) (GetChat VNone)) as [ch|e]; [|now exists []].
    change (client (record (GetChat VNone) st)) with (client st).
    rewrite Hc, log_and_reraise_id. unfold await.
    exists [GetChatMemberCount VNone].
    destruct (bot w _ (GetChatMemberCount VNone)); simpl;
      now rewrite <- app_assoc.
  - intros Hk. rewrite (call_tool_ready _ _ _ _ _ Hc).
    change (dispatch "telegram_set_webhook" arguments) with (_set_webhook arguments).
    unfold _set_webhook, set_webhook_body, self_client, set_webhook,
      try_except, bind, get_client, ret, failure_reply.
    rewrite (get_missing _ _ Hk), Hc, log_and_reraise_id. unfold await.
    destruct (bot w (calls st) _); reflexivity.
  - intros Hk Ht Hw. rewrite (call_tool_ready _ _ _ _ _ Hc).
    change (dispatch "telegram_send_photo" arguments) with (_send_photo arguments).
    rewrite (_send_photo_eq _ _ _ _ Hc), send_photo_eq.
    change (py_or (get arguments "chat_id") (of_opt_str (default_chat_id c)))
      with (destination c arguments).
    rewrite Ht, (get_missing _ _ Hk).
    unfold well_typed in Hw. simpl (_ =? _)%string in Hw.
    destruct (converted _ _) as [p|e] eqn:Hp.
    + exists p. unfold await, reply_of. destruct (bot w (calls st) _); reflexivity.
    + exfalso. revert Hp Hw. unfold converted.
      destruct (get_default arguments "parse_mode" (VStr "Markdown"));
        simpl; try discriminate.
      destruct (_ && _)%bool; discriminate.
  - intros Hk Ht. rewrite (call_tool_ready _ _ _ _ _ Hc).
    change (dispatch "telegram_send_document" arguments)
      with (_send_document arguments).
    rewrite (_send_document_eq _ _ _ _ Hc), send_document_eq.
    change (py_or (get arguments "chat_id") (of_opt_str (default_chat_id c)))
      with (destination c arguments).
    rewrite Ht, (get_missing _ _ Hk).
    assert (Hp : exists p, converted (truthy (VStr "Markdown") &&
                                      truthy (get arguments "caption"))
                             (VStr "Markdown") = Ok p)
      by (simpl; destruct (truthy (get arguments "caption")); eexists; reflexivity).
    destruct Hp as [p ->]. exists p.
    unfold await, reply_of. destruct (bot w (calls st) _); reflexivity.
Qed.

Lemma missing_required_fields_reach_the_transport_witness :
  calls (snd (call_tool "telegram_set_webhook" []
                (sample_world (sample_bot (fun _ => []) true (Ok 3)))
                (ready None None))) =
    [SetWebhook VNone VNone VNone VNone VNone].
Proof.
  exact (proj1 (proj2 (missing_required_fields_reach_the_transport
                         (sample_world (sample_bot (fun _ => []) true (Ok 3)))
                         (ready None None) (sample_client None) [] eq_refl))
           eq_refl).
Defined.

(** ** The reply of a pull *)

(** X5. With a client at hand, [telegram_get_updates] makes exactly one
    remote call, to which [limit] and [timeout] go as they are, whatever
    their value. An empty batch is answered with [{updates: [], count: 0}]
    and a remote failure with the failure envelope. A batch that holds an
    update moves the cursor to the identifier of its last update and is then
    answered with the failure envelope as well: building the first entry
    reads [update.update_type], which aiogram's [Update] does not have, so
    the updates pulled are never shown. *)
Theorem pull_reply w st c arguments :
  client st = Some c ->
  let q := GetUpdates (next_offset (last_update_id st))
             (get_default arguments "limit" (VInt 10))
             (get_default arguments "timeout" (VInt 0)) VNone in
  call_tool "telegram_get_updates" arguments w st =
    match bot w (calls st) q with
    | Ok [] =>
        (Ok [text_content
               (json_dumps (VDict [("updates", VList []); ("count", VInt 0)]))],
         record q st)
    | Ok (u :: rest) =>
        (Ok [text_content
               (json_dumps
                  (VDict [("success", VBool false);
                          ("error",
                           VStr "'Update' object has no attribute 'update_type'")]))],
         {| client := client st;
            last_update_id := Some (update_id (last rest u));
            calls := (calls st ++ [q])%list |})
    | Raise e =>
        (Ok [text_content
               (json_dumps (VDict [("success", VBool false); ("error", VStr (str e))]))],
         record q st)
    end.
Proof.
  intros Hc q. subst q.
  rewrite (call_tool_ready _ _ _ _ _ Hc).
  change (dispatch "telegram_get_updates" arguments) with (_get_updates arguments).
  destruct st as [cl seen made]. simpl in Hc. subst cl.
  unfold _get_updates, get_updates_body, self_client, get_updates, log_and_reraise,
    try_except, bind, get_client, get_last_update_id, await, ret, raise, failure_reply.
  simpl.
  destruct (bot w made _) as [[|u rest]|e]; reflexivity.
Qed.

Lemma pull_reply_witness :
  call_tool "telegram_get_updates" [("limit", VInt 1000)]
    (sample_world (sample_bot (fun _ => [8; 9]) true (Ok 3))) (ready None (Some 7)) =
  (Ok [text_content
         (json_dumps
            (VDict [("success", VBool false);
                    ("error", VStr "'Update' object has no attribute 'update_type'")]))],
   {| client := Some (sample_client None); last_update_id := Some 9;
      calls := [GetUpdates (Some 8) (VInt 1000) (VInt 0) VNone] |}).
Proof.
  exact (pull_reply (sample_world (sample_bot (fun _ => [8; 9]) true (Ok 3)))
           (ready None (Some 7)) (sample_client None) [("limit", VInt 1000)] eq_refl).
Defined.

(** ** The record of remote calls *)

Lemma reply_of_state {A} (shape : A -> value) out : snd (reply_of shape out) = snd out.
Proof. destruct out as [[a|e] st']; reflexivity. Qed.

Ltac emitted :=
  first
    [ exists []; rewrite app_nil_r; split; [reflexivity|];
      split; [unfold call_budget; simpl; lia|intros k []]
    | eexists [_]; split; [reflexivity|];
      split; [unfold call_budget; simpl; lia|intros k [<-|[]]; reflexivity]
    | eexists [_; _]; split; [simpl; rewrite <- app_assoc; reflexivity|];
      split; [unfold call_budget; simpl; lia|intros k [<-|[<-|[]]]; reflexivity] ].

Lemma dispatch_appends name arguments w st c :
  client st = Some c ->
  exists new,
    calls (snd (dispatch name arguments w st)) = (calls st ++ new)%list /\
    (length new <= call_budget name)%nat /\
    forall k, In k new -> allowed_call name k = true.
Proof.
  intros Hc. unfold dispatch.
  repeat match goal with
         | |- context [if (?a =? ?b)%string then _ else _] =>
             destruct (String.eqb_spec a b) as [->|?]
         end.
  - rewrite (_send_message_eq _ _ _ _ Hc), reply_of_state, send_message_eq.
    destruct (truthy _); [|emitted].
    destruct (slice50 _) as [[]|e]; [|emitted].
    destruct (converted _ _); emitted.
  - rewrite (_send_photo_eq _ _ _ _ Hc), reply_of_state, send_photo_eq.
    destruct (truthy _); [|emitted].
    destruct (converted _ _); emitted.
  - rewrite (_send_document_eq _ _ _ _ Hc), reply_of_state, send_document_eq.
    destruct (truthy _); [|emitted].
    destruct (converted _ _); emitted.
  - destruct (get_updates_handler w st c arguments Hc) as (H & _ & _).
    rewrite H. emitted.
  - unfold _get_bot_info, get_bot_info_body.
    rewrite (handler_reply "get_me" get_me _ w st c Hc), reply_of_state.
    unfold get_me. rewrite log_and_reraise_id. unfold await. emitted.
  - unfold _get_chat_info, get_chat_info_body, self_client, get_chat,
      get_chat_member_count, try_except, bind, get_client, ret, failure_reply.
    rewrite Hc, log_and_reraise_id. unfold await at 1.
    destruct (bot w (calls st) _) as [ch|e]; [|emitted].
    change (client (record (GetChat (get arguments "chat_id")) st)) with (client st).
    rewrite Hc, log_and_reraise_id. unfold await.
    destruct (bot w _ _); emitted.
  - unfold _set_webhook, set_webhook_body.
    rewrite (handler_reply "set_webhook"
               (fun c => set_webhook c (get arguments "url") VNone VNone VNone
                           (get arguments "allowed_updates")) _ w st c Hc),
      reply_of_state.
    unfold set_webhook. rewrite log_and_reraise_id. unfold await. emitted.
  - unfold _delete_webhook, delete_webhook_body.
    rewrite (handler_reply "delete_webhook" delete_webhook _ w st c Hc),
      reply_of_state.
    unfold delete_webhook. rewrite log_and_reraise_id. unfold await. emitted.
  - unfold _get_webhook_info, get_webhook_info_body.
    rewrite (handler_reply "get_webhook_info" get_webhook_info VDict w st c Hc),
      reply_of_state.
    unfold get_webhook_info. rewrite log_and_reraise_id. unfold bind, await, ret.
    destruct (bot w (calls st) GetWebhookInfo); emitted.
  - unfold ret. emitted.
Qed.

(** X7. A request never touches the calls already on record and never
    retries. When the session cannot be created it makes no remote call at
    all, and neither does a request for a name outside the catalog.
    Otherwise it appends at most one remote call, two for
    [telegram_get_chat_info], and only calls of its own tool (an information
    tool never sends, a send tool never pulls). *)
Theorem requests_append_their_own_calls name arguments w st :
  (forall e st1,
      connect w st = (Raise e, st1) ->
      calls (snd (call_tool name arguments w st)) = calls st) /\
  (~ In name catalog ->
   calls (snd (call_tool name arguments w st)) = calls st) /\
  exists new,
    calls (snd (call_tool name arguments w st)) = (calls st ++ new)%list /\
    (length new <= call_budget name)%nat /\
    forall k, In k new -> allowed_call name k = true.
Proof.
  pose proof (connect_frame w st) as [_ Hk].
  split; [|split].
  - intros e st1 Hconn. rewrite Hconn in Hk.
    unfold call_tool, try_except, bind. rewrite Hconn. exact Hk.
  - intros Hn. unfold call_tool, try_except, bind.
    rewrite (dispatch_unknown _ arguments Hn).
    destruct (connect w st) as [[[]|e] st1]; exact Hk.
  - destruct (connect w st) as [[[]|e] st1] eqn:Hconn.
    + rewrite (call_tool_connected _ _ _ _ _ Hconn).
      destruct (connect_client _ _ _ Hconn) as (c & Hc & _ & Hk1).
      destruct (dispatch_appends name arguments w st1 c Hc) as (new & H1 & H2 & H3).
      exists new. rewrite H1, Hk1. auto.
    + unfold call_tool, try_except, bind. rewrite Hconn. simpl in *.
      exists []. rewrite app_nil_r. split; [assumption|]. split.
      * unfold call_budget. destruct (_ =? _)%string; simpl; lia.
      * intros k [].
Qed.

(** No token: the request for a declared tool makes no remote call. *)
Lemma requests_append_their_own_calls_witness :
  calls (snd (call_tool "telegram_get_bot_info" [] (bare_world failing_bot)
                (ready_to_connect [GetMe]))) = [GetMe].
Proof.
  exact (proj1 (requests_append_their_own_calls "telegram_get_bot_info" []
                  (bare_world failing_bot) (ready_to_connect [GetMe]))
           (ValueError "Missing Telegram bot token.") (ready_to_connect [GetMe])
           eq_refl).
Defined.

(** ** The session *)

Lemma kl_ret {A} (a : A) : keeps_client (ret a).
Proof. now intros w st. Qed.

Lemma kl_raise {A} e : keeps_client (@raise A e).
Proof. now intros w st. Qed.

Lemma kl_lift {A} (r : result A) : keeps_client (lift r).
Proof. now intros w st. Qed.

Lemma kl_bind {A B} (m : M A) (k : A -> M B) :
  keeps_client m -> (forall a, keeps_client (k a)) -> keeps_client (bind m k).
Proof.
  intros Hm Hk w st. unfold bind. specialize (Hm w st).
  destruct (m w st) as [[a|e] st1]; simpl in *; [|assumption].
  now rewrite Hk.
Qed.

Lemma kl_try {A} (m : M A) h :
  keeps_client m -> (forall e, keeps_client (h e)) -> keeps_client (try_except m h).
Proof.
  intros Hm Hh w st. unfold try_except. specialize (Hm w st).
  destruct (m w st) as [[a|e] st1]; simpl in *; [assumption|].
  now rewrite Hh.
Qed.

Lemma kl_await c : keeps_client (await c).
Proof. now intros w st. Qed.

Lemma kl_get_client : keeps_client get_client.
Proof. now intros w st. Qed.

Lemma kl_get_last : keeps_client get_last_update_id.
Proof. now intros w st. Qed.

Lemma kl_set_last z : keeps_client (set_last_update_id z).
Proof. now intros w st. Qed.

Create HintDb session.
#[local] Hint Resolve kl_ret kl_raise kl_lift kl_await kl_get_client kl_get_last
  kl_set_last : session.

Ltac keeps_session :=
  repeat first
    [ progress intros
    | solve [auto with session]
    | apply kl_bind
    | apply kl_try
    | match goal with
      | |- keeps_client (if ?b then _ else _) => destruct b
      | |- keeps_client (match ?x with _ => _ end) => destruct x
      end ].

Lemma kl_dispatch name arguments : keeps_client (dispatch name arguments).
Proof.
  unfold dispatch.
  repeat match goal with
         | |- keeps_client (if ?b then _ else _) => destruct b
         end;
    unfold _send_message, send_message_body, send_message,
      _send_photo, send_photo_body, send_photo,
      _send_document, send_document_body, send_document,
      _get_updates, get_updates_body, get_updates,
      _get_bot_info, get_bot_info_body, get_me,
      _get_chat_info, get_chat_info_body, get_chat, get_chat_member_count,
      _set_webhook, set_webhook_body, set_webhook,
      _delete_webhook, delete_webhook_body, delete_webhook,
      _get_webhook_info, get_webhook_info_body, get_webhook_info,
      failure_reply, self_client, to_parse_mode_enum, dot_upper, log_and_reraise;
    keeps_session.
Qed.

Lemma call_tool_keeps_session name arguments w st c :
  client st = Some c -> client (snd (call_tool name arguments w st)) = Some c.
Proof.
  intros Hc. rewrite (call_tool_ready _ _ _ _ _ Hc).
  now rewrite kl_dispatch.
Qed.

Lemma serve_keeps_session w reqs st c :
  client st = Some c -> client (serve w reqs st) = Some c.
Proof.
  revert st. induction reqs as [|[name arguments] reqs IH]; intros st Hc; simpl.
  - exact Hc.
  - apply IH. now apply call_tool_keeps_session.
Qed.

(** X8. The server has one session: once a client exists, no request
    replaces it or drops it, whatever the requests are and however the
    remote side answers. *)
Theorem session_is_kept w reqs st c :
  client st = Some c -> client (serve w reqs st) = Some c.
Proof. apply serve_keeps_session. Qed.

Lemma session_is_kept_witness :
  client (serve (sample_world failing_bot)
            [("telegram_get_bot_info", []); ("telegram_ping", [])]
            (ready (Some "99") None)) =
    Some (sample_client (Some "99")).
Proof.
  exact (session_is_kept (sample_world failing_bot)
           [("telegram_get_bot_info", []); ("telegram_ping", [])]
           (ready (Some "99") None) (sample_client (Some "99")) eq_refl).
Defined.

Lemma TelegramClient_new_construct w st :
  TelegramClient_new w st = (construct w, st).
Proof.
  unfold construct, TelegramClient_new, bind, os_getenv, raise, ret.
  destruct (negb _); [reflexivity|].
  destruct (Bot_new w _); reflexivity.
Qed.

Lemma connect_without_client w st :
  client st = None ->
  connect w st =
    match construct w with
    | Ok c => (Ok tt, {| client := Some c; last_update_id := last_update_id st;
                         calls := calls st |})
    | Raise e => (Raise e, st)
    end.
Proof.
  intros Hc. unfold connect, bind, get_client, ret. rewrite Hc.
  unfold initialize. rewrite log_and_reraise_id. unfold bind.
  rewrite TelegramClient_new_construct.
  destruct (construct w); reflexivity.
Qed.

(** X9. The client is created by the first request, of any name, when it
    can be created; when it cannot, every request is answered with the
    sentence [Error: <message>], makes no remote call and leaves the server
    as it was, so that the next request tries again. *)
Theorem session_is_created_by_the_first_request w st reqs :
  client st = None ->
  match construct w with
  | Ok c => reqs <> [] -> client (serve w reqs st) = Some c
  | Raise e =>
      serve w reqs st = st /\
      forall name arguments,
        call_tool name arguments w st =
          (Ok [text_content (plain ("Error: " ++ str e))], st)
  end.
Proof.
  intros Hc. pose proof (connect_without_client w st Hc) as Hconn.
  destruct (construct w) as [c|e].
  - intros Hr. destruct reqs as [|[name arguments] reqs]; [contradiction|].
    simpl. apply serve_keeps_session.
    rewrite (call_tool_connected _ _ _ _ _ Hconn). now rewrite kl_dispatch.
  - assert (Hall : forall name arguments,
               call_tool name arguments w st =
               (Ok [text_content (plain ("Error: " ++ str e))], st)).
    { intros name arguments. unfold call_tool, try_except, bind.
      now rewrite Hconn. }
    split; [|exact Hall].
    induction reqs as [|[name arguments] reqs IH]; simpl; [reflexivity|].
    now rewrite Hall.
Qed.

(** No token in the environment: every request is answered with the same
    sentence and the server stays as it was. *)
Lemma session_is_created_by_the_first_request_witness :
  serve (bare_world failing_bot) [("telegram_get_bot_info", [])] init_state =
    init_state /\
  forall name arguments,
    call_tool name arguments (bare_world failing_bot) init_state =
      (Ok [text_content (plain ("Error: " ++ "Missing Telegram bot token."))],
       init_state).
Proof.
  exact (session_is_created_by_the_first_request (bare_world failing_bot) init_state
           [("telegram_get_bot_info", [])] eq_refl).
Defined.

(** ** The constructor of the client *)

(** X10. [TelegramClient(bot_token, default_chat_id)] takes each argument
    when it is given and not empty and the environment variable otherwise
    (an empty argument counts as none); it raises before building the [Bot]
    when no token is left; it makes no remote call and changes nothing of
    the server; and a client it returns has a token that is not empty and
    that the [Bot] constructor accepted. With no argument it is the
    constructor the server uses. *)
Theorem constructor_prefers_its_arguments token chat w st :
  TelegramClient_init None None w st = TelegramClient_new w st /\
  snd (TelegramClient_init token chat w st) = st /\
  (truthy (of_opt_str (opt_or token (getenv w "TELEGRAM_BOT_TOKEN"))) = false ->
   fst (TelegramClient_init token chat w st) =
     Raise (ValueError "Missing Telegram bot token.")) /\
  (forall c,
      fst (TelegramClient_init token chat w st) = Ok c ->
      bot_token c <> EmptyString /\
      Some (bot_token c) = opt_or token (getenv w "TELEGRAM_BOT_TOKEN") /\
      default_chat_id c = opt_or chat (getenv w "TELEGRAM_CHAT_ID") /\
      Bot_new w (bot_token c) = Ok tt).
Proof.
  split; [reflexivity|].
  unfold TelegramClient_init, bind, os_getenv, raise, ret.
  fold (opt_or token (getenv w "TELEGRAM_BOT_TOKEN")).
  fold (opt_or chat (getenv w "TELEGRAM_CHAT_ID")).
  destruct (opt_or token (getenv w "TELEGRAM_BOT_TOKEN")) as [[|a s]|]; simpl.
  - split; [reflexivity|]. split; [reflexivity|]. intros k Hk. discriminate Hk.
  - destruct (Bot_new w (String a s)) as [[]|e] eqn:E; simpl;
      (split; [reflexivity|]); (split; [discriminate|]); intros k Hk.
    + injection Hk as <-. simpl. repeat split; [discriminate|exact E].
    + discriminate Hk.
  - split; [reflexivity|]. split; [reflexivity|]. intros k Hk. discriminate Hk.
Qed.

Lemma constructor_prefers_its_arguments_witness :
  fst (TelegramClient_init (Some EmptyString) None
         (bare_world failing_bot) init_state) =
    Raise (ValueError "Missing Telegram bot token.").
Proof.
  exact (proj1 (proj2 (proj2 (constructor_prefers_its_arguments
                                (Some EmptyString) None
                                (bare_world failing_bot) init_state)))
           eq_refl).
Defined.

(** ** The notifier *)

Lemma send_message_kw_eq c message kwargs w st :
  unexpected kwargs = None ->
  send_message_kw c message kwargs w st =
    send_message c message (get kwargs "chat_id")
      (get_default kwargs "parse_mode" (VStr "Markdown"))
      (get_default kwargs "disable_notification" (VBool false))
      (get kwargs "reply_to_message_id") (get kwargs "reply_markup") w st.
Proof. intros H. unfold send_message_kw. now rewrite H. Qed.

(** X11. A call of [TelegramNotifier.send_message] with a keyword named
    [message] or [self] raises [TypeError] and makes no remote call: the
    keyword clashes with a parameter of the method itself, outside its
    [try]. Any other call returns a boolean and never raises: [False]
    without any remote call when a keyword cannot be bound by the client's
    method; [True] only when it has made exactly one remote call, a send
    that the remote side accepted; and when it returns [False] it has made
    no remote call, or one that the remote side refused. *)
Theorem notifier_send_message_reports self message kwargs w st :
  (forall k,
      own_parameter kwargs = Some k ->
      exists text, notifier_send_message self message kwargs w st =
                   (Raise (TypeError text), st)) /\
  (own_parameter kwargs = None ->
   exists b,
     fst (notifier_send_message self message kwargs w st) = Ok b /\
     (unexpected kwargs <> None ->
      b = false /\ snd (notifier_send_message self message kwargs w st) = st) /\
     (b = true ->
      exists q (m : resp q),
        is_send q = true /\ bot w (calls st) q = Ok m /\
        calls (snd (notifier_send_message self message kwargs w st)) =
          (calls st ++ [q])%list) /\
     (b = false ->
      calls (snd (notifier_send_message self message kwargs w st)) = calls st \/
      exists q e,
        bot w (calls st) q = Raise e /\
        calls (snd (notifier_send_message self message kwargs w st)) =
          (calls st ++ [q])%list)).
Proof.
  unfold notifier_send_message. split.
  - intros k Hk. rewrite Hk. unfold raise. eauto.
  - intros Ho. rewrite Ho. unfold try_except, bind, ret.
    destruct (unexpected kwargs) as [k|] eqn:Hu.
    + unfold send_message_kw. rewrite Hu. unfold raise.
      exists false. repeat split; try discriminate; auto.
    + rewrite (send_message_kw_eq _ _ _ _ _ Hu), send_message_eq.
      destruct (truthy _);
        [|exists false; repeat split; try discriminate; auto; now intros []].
      destruct (slice50 message) as [[]|e];
        [|exists false; repeat split; try discriminate; auto; now intros []].
      destruct (converted _ _) as [p|e];
        [|exists false; repeat split; try discriminate; auto; now intros []].
      unfold await.
      destruct (bot w (calls st) _) as [m|e] eqn:E.
      * exists true. split; [reflexivity|]. split; [now intros []|].
        split; [|discriminate].
        intros _. eexists. exists m. split; [|split; [exact E|reflexivity]].
        reflexivity.
      * exists false. split; [reflexivity|]. split; [now intros []|].
        split; [discriminate|].
        intros _. right. eexists. exists e. split; [exact E|reflexivity].
Qed.

Lemma notifier_send_message_reports_witness :
  exists text,
    notifier_send_message {| notifier_client := sample_client (Some "99") |}
      (VStr "hi") [("message", VStr "again")]
      (sample_world (sample_bot (fun _ => []) true (Ok 3)))
      (ready (Some "99") None) =
    (Raise (TypeError text), ready (Some "99") None).
Proof.
  exact (proj1 (notifier_send_message_reports
                  {| notifier_client := sample_client (Some "99") |}
                  (VStr "hi") [("message", VStr "again")]
                  (sample_world (sample_bot (fun _ => []) true (Ok 3)))
                  (ready (Some "99") None))
           "message" eq_refl).
Defined.

(** A keyword the client's method does not know: [False], nothing sent. *)
Example notifier_unknown_keyword :
  notifier_send_message {| notifier_client := sample_client (Some "99") |}
    (VStr "hi") [("silent", VBool true)]
    (sample_world (sample_bot (fun _ => []) true (Ok 3))) (ready (Some "99") None) =
  (Ok false, ready (Some "99") None).
Proof. reflexivity. Qed.

(** X12. The two waitlist notifications return normally whatever happens.
    With a default destination they make exactly one remote call: a send
    of the text they build, to that destination, with the Markdown parse
    mode and with notification; whether the remote side accepts it or not
    is not reported. With no default destination nothing is sent and
    nothing is reported either. *)
Theorem waitlist_entries_go_to_the_default_chat self name email comment referral w st :
  let target := of_opt_str (default_chat_id (notifier_client self)) in
  let sent text :=
    (Ok tt,
     if truthy target then
       record (SendMessage target (VStr text) (Some MARKDOWN) (VBool false) VNone VNone) st
     else st) in
  send_new_waitlist_entry self name email comment referral w st =
    sent (waitlist_message "🆕 *New Waitlist Entry:*" name email comment referral) /\
  send_updated_waitlist_entry self name email comment referral w st =
    sent (waitlist_message "🔄 *Waitlist Entry Updated*" name email comment referral).
Proof.
  intros target sent. subst sent.
  unfold send_new_waitlist_entry, send_updated_waitlist_entry,
    notifier_send_message.
  simpl own_parameter. cbv iota. unfold try_except, bind, ret.
  rewrite !send_message_kw_eq by reflexivity.
  rewrite !send_message_eq.
  change (py_or (get [] "chat_id") (of_opt_str (default_chat_id (notifier_client self))))
    with target.
  destruct (truthy target); [|split; reflexivity].
  change (get_default [] "parse_mode" (VStr "Markdown")) with (VStr "Markdown").
  change (converted (truthy (VStr "Markdown")) (VStr "Markdown"))
    with (Ok (Some MARKDOWN)).
  simpl slice50. cbv iota. unfold await.
  split; destruct (bot w (calls st) _); reflexivity.
Qed.

(** The text of a notification: the lines of a comment and of a referral
    source are there when these are given and not empty. *)
Example waitlist_message_lines :
  waitlist_message "H" "Ann" "a@b.c" (Some "hello") (Some EmptyString) =
    "H" ++ nl ++ nl ++ "*Name:* Ann" ++ nl ++ "*Email:* a@b.c" ++ nl ++
    "*Comment:* hello".
Proof. reflexivity. Qed.

(** ** The life of the server *)

Lemma serve_without_session w reqs st e :
  client st = None -> construct w = Raise e -> serve w reqs st = st.
Proof.
  intros Hc He.
  induction reqs as [|[name arguments] reqs IH]; simpl; [reflexivity|].
  unfold call_tool, try_except, bind.
  rewrite (connect_without_client w _ Hc), He. exact IH.
Qed.

Lemma serve_creates_session w name arguments reqs st c :
  client st = None -> construct w = Ok c ->
  client (serve w ((name, arguments) :: reqs) st) = Some c.
Proof.
  intros Hc Hk. simpl. apply serve_keeps_session.
  pose proof (connect_without_client w _ Hc) as Hconn. rewrite Hk in Hconn.
  rewrite (call_tool_connected _ _ _ _ _ Hconn). now rewrite kl_dispatch.
Qed.

(** X13. [run] closes the session of the bot exactly once when a client
    was created, which is when at least one request came and the client
    could be built, and never otherwise; this does not depend on whether
    serving returned or raised. What serving raised is raised again, unless
    closing raises, which then takes its place. *)
Theorem session_is_closed_once h reqs :
  let e := run h reqs init_state in
  closes e =
    match reqs, construct (host_world h) with
    | _ :: _, Ok _ => 1%nat
    | _, _ => 0%nat
    end /\
  outcome e =
    match closes e, session_close h with
    | S _, Raise x => Raise x
    | _, _ => serving h
    end.
Proof.
  unfold run. cbv zeta. unfold request in reqs.
  destruct reqs as [|[name arguments] reqs]; [split; reflexivity|].
  destruct (construct (host_world h)) as [c|x] eqn:Hk.
  - rewrite (serve_creates_session _ name arguments reqs init_state c eq_refl Hk).
    simpl. split; [reflexivity|]. destruct (session_close h); reflexivity.
  - rewrite (serve_without_session _ ((name, arguments) :: reqs) init_state x eq_refl Hk).
    split; reflexivity.
Qed.

(** X14. [main] exits with status 1, before any server exists, when the
    token is missing or empty. When it goes on, the token check of the
    client's constructor cannot fail any more: creating the session fails
    only if the [Bot] constructor refuses the token. *)
Theorem main_guards_the_token h reqs :
  (truthy (of_opt_str (getenv (host_world h) "TELEGRAM_BOT_TOKEN")) = false ->
   main h reqs = SysExit 1) /\
  (forall token,
      getenv (host_world h) "TELEGRAM_BOT_TOKEN" = Some token ->
      token <> EmptyString ->
      main h reqs = Returned (run h reqs init_state) /\
      construct (host_world h) =
        match Bot_new (host_world h) token with
        | Ok _ =>
            Ok {| bot_token := token;
                  default_chat_id := getenv (host_world h) "TELEGRAM_CHAT_ID" |}
        | Raise e => Raise e
        end).
Proof.
  unfold main. split.
  - intros H. now rewrite H.
  - intros token Ht Hne.
    unfold construct, TelegramClient_new, bind, os_getenv, raise, ret.
    rewrite Ht. destruct token as [|a s]; [contradiction|]. simpl.
    split; [reflexivity|]. destruct (Bot_new _ _) as [[]|e]; reflexivity.
Qed.

Lemma main_guards_the_token_witness :
  main {| host_world := bare_world failing_bot; serving := Ok tt;
          session_close := Ok tt |}
    [("telegram_get_bot_info", [])] = SysExit 1.
Proof.
  exact (proj1 (main_guards_the_token
                  {| host_world := bare_world failing_bot; serving := Ok tt;
                     session_close := Ok tt |}
                  [("telegram_get_bot_info", [])]) eq_refl).
Defined.

(** ** Arguments no schema declares *)

Ltac undeclared H :=
  unfold get, get_default; simpl lookup;
  repeat match goal with
         | |- context [(?k =? ?s)%string] =>
             destruct (String.eqb_spec k s) as [->|_];
             [exfalso; apply H; simpl; tauto|]
         end.

(** X6. A handler reads the properties its schema declares and nothing
    else: for every declared tool, an argument under a key the schema of
    the tool does not declare changes neither the reply, nor the remote
    calls, nor the server. *)
Theorem undeclared_arguments_are_ignored t k v arguments w st :
  In t list_tools ->
  ~ In k (map prop_name (tool_properties t)) ->
  call_tool (tool_name t) ((k, v) :: arguments) w st =
    call_tool (tool_name t) arguments w st.
Proof.
  intros Ht Hk. unfold list_tools in Ht. simpl in Ht.
  repeat (destruct Ht as [<-|Ht]); try contradiction; simpl in Hk |- *;
    unfold call_tool, dispatch; simpl;
    unfold _send_message, send_message_body, _send_photo, send_photo_body,
      _send_document, send_document_body, _get_updates, get_updates_body,
      _get_bot_info, get_bot_info_body, _get_chat_info, get_chat_info_body,
      _set_webhook, set_webhook_body, _delete_webhook, delete_webhook_body,
      _get_webhook_info, get_webhook_info_body;
    undeclared Hk; reflexivity.
Qed.

Lemma undeclared_arguments_are_ignored_witness :
  call_tool "telegram_delete_webhook" [("drop_pending_updates", VBool true)]
    (sample_world (sample_bot (fun _ => []) true (Ok 3))) init_state =
  call_tool "telegram_delete_webhook" []
    (sample_world (sample_bot (fun _ => []) true (Ok 3))) init_state.
Proof.
  apply (undeclared_arguments_are_ignored
           {| tool_name := "telegram_delete_webhook";
              tool_description := "Remove webhook and switch back to getUpdates";
              tool_properties := [];
              tool_required := [] |}
           "drop_pending_updates" (VBool true) []).
  - unfold list_tools. simpl. tauto.
  - simpl. tauto.
Defined.
